(** * EchoCopi memory engine: a shallow embedding of [echo_memory.py]

    The development follows the layout of the Python module:
    - [Py]        the Python values the engine stores in its records
                  (the JSON-serialisable fragment) and the dict operations
                  the code uses on them;
    - [Json]      [json.dumps(..., sort_keys=True)] as the checksum codec
                  calls it;
    - [Hashlib]   SHA-256 on ASCII texts;
    - [Codec]     [_hash_entry] and [verify_integrity], over an arbitrary
                  digest function, of which [Hashlib.sha256] is the one
                  the code uses;
    - [Resume]    [resume_on_startup] over an explicit view of the disk;
    - [Engine]    the engine state, [log_thought] and the recording helpers;
    - [Session]   [verify_session].

    The [str] values of the model are Rocq strings whose characters stand
    for the code points U+0000..U+00FF; Python floats are not part of
    the value type.  [Json.escape_code_points] gives the string encoder
    on code points of any size, and [Json.ints_printable] says which
    integers [json.dumps] prints at all. *)

From Stdlib Require Import ZArith List Bool Lia Ascii String.
From Stdlib Require Import Permutation Sorted.
From Stdlib Require Import DecimalString DecimalZ DecimalPos DecimalN.
Import ListNotations.

#[local] Set Warnings "-register-all".
Local Open Scope string_scope.
Local Open Scope Z_scope.

(* ================================================================== *)
(** ** Python values *)

Module Py.

(** The values that can sit in an event record.  [PTuple] is kept apart
    from [PList]: Python compares them unequal, while [json.dumps] prints
    both as a JSON array. *)
Inductive pyval : Type :=
| PNone
| PBool (b : bool)
| PInt (z : Z)
| PStr (s : string)
| PList (l : list pyval)
| PTuple (l : list pyval)
| PDict (d : list (string * pyval)).

(** A [dict] with [str] keys, in insertion order. *)
Definition pydict : Type := list (string * pyval).

(** Induction principle that reaches the values nested under lists,
    tuples and dicts. *)
Section pyval_nested_ind.
Variable P : pyval -> Prop.
Hypothesis HNone : P PNone.
Hypothesis HBool : forall b, P (PBool b).
Hypothesis HInt : forall z, P (PInt z).
Hypothesis HStr : forall s, P (PStr s).
Hypothesis HList : forall l, Forall P l -> P (PList l).
Hypothesis HTuple : forall l, Forall P l -> P (PTuple l).
Hypothesis HDict : forall d, Forall (fun kv => P (snd kv)) d -> P (PDict d).

Fixpoint pyval_nested_ind (v : pyval) : P v :=
  match v with
  | PNone => HNone
  | PBool b => HBool b
  | PInt z => HInt z
  | PStr s => HStr s
  | PList l =>
      HList l ((fix go (l : list pyval) : Forall P l :=
                  match l with
                  | [] => Forall_nil _
                  | x :: xs => Forall_cons _ (pyval_nested_ind x) (go xs)
                  end) l)
  | PTuple l =>
      HTuple l ((fix go (l : list pyval) : Forall P l :=
                   match l with
                   | [] => Forall_nil _
                   | x :: xs => Forall_cons _ (pyval_nested_ind x) (go xs)
                   end) l)
  | PDict d =>
      HDict d ((fix go (d : pydict) : Forall (fun kv => P (snd kv)) d :=
                  match d with
                  | [] => Forall_nil _
                  | kv :: rest =>
                      Forall_cons _ (pyval_nested_ind (snd kv)) (go rest)
                  end) d)
  end.
End pyval_nested_ind.

(** [k in d] *)
Fixpoint dict_contains (d : pydict) (k : string) : bool :=
  match d with
  | [] => false
  | (k', _) :: rest => if String.eqb k' k then true else dict_contains rest k
  end.

(** [d[k]]; [None] stands for [KeyError]. *)
Fixpoint dict_getitem (d : pydict) (k : string) : option pyval :=
  match d with
  | [] => None
  | (k', v) :: rest => if String.eqb k' k then Some v else dict_getitem rest k
  end.

(** [d.get(k, default)] *)
Definition dict_get (d : pydict) (k : string) (default : pyval) : pyval :=
  match dict_getitem d k with
  | Some v => v
  | None => default
  end.

(** [d[k] = v]: an existing key keeps its position, a new key goes last. *)
Fixpoint dict_setitem (d : pydict) (k : string) (v : pyval) : pydict :=
  match d with
  | [] => [(k, v)]
  | (k', v') :: rest =>
      if String.eqb k' k then (k', v) :: rest
      else (k', v') :: dict_setitem rest k v
  end.

(** The keys of a dict, in insertion order. *)
Definition keys (d : pydict) : list string := map fst d.

(** Truth value of an object, as [not x] and [x or y] test it. *)
Definition truthy (v : pyval) : bool :=
  match v with
  | PNone => false
  | PBool b => b
  | PInt z => negb (z =? 0)
  | PStr s => negb (String.eqb s "")
  | PList l | PTuple l => match l with [] => false | _ => true end
  | PDict d => match d with [] => false | _ => true end
  end.

(** [v == s] for a [str] [s]: only an equal [str] compares equal. *)
Definition eq_str (v : pyval) (s : string) : bool :=
  match v with
  | PStr s' => String.eqb s' s
  | _ => false
  end.

(** JSON documents: the values [json.loads] can return (null, booleans,
    integers, strings, arrays, string-keyed objects).  No tuples, and,
    as in any Python dict, no key twice in a mapping. *)
Inductive json_doc : pyval -> Prop :=
| jd_none : json_doc PNone
| jd_bool b : json_doc (PBool b)
| jd_int z : json_doc (PInt z)
| jd_str s : json_doc (PStr s)
| jd_list l : Forall json_doc l -> json_doc (PList l)
| jd_dict d :
    NoDup (keys d) -> Forall (fun kv => json_doc (snd kv)) d ->
    json_doc (PDict d).

(** Two values hold the same items when they differ at most in the
    order in which their dicts were filled: dicts are compared as Python
    compares them, by their items and not by insertion order; lists are
    compared item by item, and so are tuples.  (A [bool] and the [int]
    Python finds equal to it are told apart here.) *)
Inductive same_items : pyval -> pyval -> Prop :=
| si_none : same_items PNone PNone
| si_bool b : same_items (PBool b) (PBool b)
| si_int z : same_items (PInt z) (PInt z)
| si_str s : same_items (PStr s) (PStr s)
| si_list l1 l2 : Forall2 same_items l1 l2 -> same_items (PList l1) (PList l2)
| si_tuple l1 l2 :
    Forall2 same_items l1 l2 -> same_items (PTuple l1) (PTuple l2)
| si_dict d1 d2 d :
    NoDup (keys d1) ->
    Permutation d1 d ->
    Forall2 (fun a b => fst a = fst b /\ same_items (snd a) (snd b)) d d2 ->
    same_items (PDict d1) (PDict d2).

End Py.
Import Py.

(* ================================================================== *)
(** ** [json.dumps(obj, sort_keys=True)] *)

Module Json.

(** The double quote character, U+0022. *)
Definition dquote : ascii := "034"%char.

Definition hex_digit (n : N) : ascii :=
  match n with
  | 0 => "0" | 1 => "1" | 2 => "2" | 3 => "3" | 4 => "4" | 5 => "5"
  | 6 => "6" | 7 => "7" | 8 => "8" | 9 => "9" | 10 => "a" | 11 => "b"
  | 12 => "c" | 13 => "d" | 14 => "e" | _ => "f"
  end%N%char.

(** ['\\u{0:04x}'.format(n)] for a code point below 256, which is what a
    character of the model's strings is; [u_escape_4] below is the same
    on any code point of the basic plane. *)
Definition u_escape (c : ascii) : string :=
  let n := N_of_ascii c in
  String "\" (String "u" (String "0" (String "0"
    (String (hex_digit (N.div n 16)) (String (hex_digit (N.modulo n 16)) ""))))).

(** The [replace] callback of [py_encode_basestring_ascii]:
    [ESCAPE_DCT] first, then the [\uXXXX] form; the characters
    [' '..'~'] other than the quote and the backslash are not matched by
    [ESCAPE_ASCII] and stay as they are. *)
Definition escape_char (c : ascii) : string :=
  let n := N_of_ascii c in
  if (n =? 34)%N then String "\" (String dquote "")
  else if (n =? 92)%N then String "\" (String "\" "")
  else if (n =? 8)%N then String "\" (String "b" "")
  else if (n =? 12)%N then String "\" (String "f" "")
  else if (n =? 10)%N then String "\" (String "n" "")
  else if (n =? 13)%N then String "\" (String "r" "")
  else if (n =? 9)%N then String "\" (String "t" "")
  else if ((32 <=? n) && (n <=? 126))%N then String c ""
  else u_escape c.

Fixpoint escape (s : string) : string :=
  match s with
  | EmptyString => EmptyString
  | String c rest => escape_char c ++ escape rest
  end.

(** [encode_basestring_ascii(s)] *)
Definition encode_basestring_ascii (s : string) : string :=
  String dquote (escape s ++ String dquote "").

(** ['\\u{0:04x}'.format(n)] for [n] below [0x10000]. *)
Definition u_escape_4 (n : N) : string :=
  String "\" (String "u"
    (String (hex_digit (N.shiftr n 12))
      (String (hex_digit (N.land (N.shiftr n 8) 15))
        (String (hex_digit (N.land (N.shiftr n 4) 15))
          (String (hex_digit (N.land n 15)) ""))))).

(** The [replace] callback on a code point of any size: from U+10000 on
    the character is written as the two halves of a surrogate pair,

      [n -= 0x10000; s1 = 0xd800 | ((n >> 10) & 0x3ff);
       s2 = 0xdc00 | (n & 0x3ff)]. *)
Definition escape_code_point (n : N) : string :=
  (if n =? 34 then String "\" (String dquote "")
   else if n =? 92 then String "\" (String "\" "")
   else if n =? 8 then String "\" (String "b" "")
   else if n =? 12 then String "\" (String "f" "")
   else if n =? 10 then String "\" (String "n" "")
   else if n =? 13 then String "\" (String "r" "")
   else if n =? 9 then String "\" (String "t" "")
   else if (32 <=? n) && (n <=? 126) then String (ascii_of_N n) ""
   else if n <? 65536 then u_escape_4 n
   else
     let m := n - 65536 in
     let s1 := N.lor 55296 (N.land (N.shiftr m 10) 1023) in
     let s2 := N.lor 56320 (N.land m 1023) in
     u_escape_4 s1 ++ u_escape_4 s2)%N.

(** [py_encode_basestring_ascii] without the surrounding quotes, on a
    [str] given by its code points. *)
Fixpoint escape_code_points (s : list N) : string :=
  match s with
  | [] => EmptyString
  | n :: rest => escape_code_point n ++ escape_code_points rest
  end.

(** The code points of a string of the model. *)
Fixpoint code_points (s : string) : list N :=
  match s with
  | EmptyString => []
  | String c rest => N_of_ascii c :: code_points rest
  end.

(** [int.__repr__], where it returns: see [repr_int_returns]. *)
Definition repr_int (z : Z) : string := NilEmpty.string_of_int (Z.to_int z).

(** [sys.int_max_str_digits], as CPython sets it from 3.11 on:
    [int.__repr__] raises [ValueError] for an integer of more decimal
    digits, and [json.dumps] with it. *)
Definition int_max_str_digits : nat := 4300.

Definition repr_int_returns (z : Z) : bool :=
  (String.length (repr_int (Z.abs z)) <=? int_max_str_digits)%nat.

(** Whether [json.dumps] can print every integer of a value. *)
Fixpoint ints_printable (v : pyval) : bool :=
  match v with
  | PInt z => repr_int_returns z
  | PList l | PTuple l => forallb ints_printable l
  | PDict d => forallb (fun kv => ints_printable (snd kv)) d
  | _ => true
  end.

(** [sep.join(parts)] *)
Fixpoint join (sep : string) (parts : list string) : string :=
  match parts with
  | [] => ""
  | [p] => p
  | p :: rest => p ++ sep ++ join sep rest
  end.

(** [sorted(dct.items())]: the keys of a dict are distinct, so the order
    is decided by the keys alone, compared as Python compares [str]
    (code point by code point).  Insertion sort, stable. *)
Section sort_items.
Context {A : Type}.

Fixpoint insert_item (kv : string * A) (l : list (string * A))
  : list (string * A) :=
  match l with
  | [] => [kv]
  | kv' :: rest =>
      if String.leb (fst kv) (fst kv') then kv :: l
      else kv' :: insert_item kv rest
  end.

Fixpoint sort_items (l : list (string * A)) : list (string * A) :=
  match l with
  | [] => []
  | kv :: rest => insert_item kv (sort_items rest)
  end.
End sort_items.

(** One [key: value] member of an object, the value already rendered. *)
Definition member (kv : string * string) : string :=
  encode_basestring_ascii (fst kv) ++ ": " ++ snd kv.

(** The encoder with the default separators [(', ', ': ')],
    [ensure_ascii=True] and [sort_keys=True].  The values of a dict are
    rendered before the items are sorted; the sort looks at keys only. *)
Fixpoint dumps (v : pyval) : string :=
  match v with
  | PNone => "null"
  | PBool true => "true"
  | PBool false => "false"
  | PInt z => repr_int z
  | PStr s => encode_basestring_ascii s
  | PList l | PTuple l => "[" ++ join ", " (map dumps l) ++ "]"
  | PDict d =>
      "{" ++ join ", "
        (map member (sort_items (map (fun kv => (fst kv, dumps (snd kv))) d)))
      ++ "}"
  end.

(** The [replace] callback of [py_encode_basestring], the string
    encoder under [ensure_ascii=False]: [ESCAPE] matches the quote, the
    backslash and the characters below the space, and nothing else. *)
Definition escape_char_plain (c : ascii) : string :=
  let n := N_of_ascii c in
  if (n =? 34)%N then String "\" (String dquote "")
  else if (n =? 92)%N then String "\" (String "\" "")
  else if (n =? 8)%N then String "\" (String "b" "")
  else if (n =? 12)%N then String "\" (String "f" "")
  else if (n =? 10)%N then String "\" (String "n" "")
  else if (n =? 13)%N then String "\" (String "r" "")
  else if (n =? 9)%N then String "\" (String "t" "")
  else if (n <? 32)%N then u_escape c
  else String c "".

Fixpoint escape_plain (s : string) : string :=
  match s with
  | EmptyString => EmptyString
  | String c rest => escape_char_plain c ++ escape_plain rest
  end.

(** [encode_basestring(s)] *)
Definition encode_basestring (s : string) : string :=
  String dquote (escape_plain s ++ String dquote "").

(** The text [json.dump(obj, f, ensure_ascii=False)] writes: default
    separators, the items of a dict in insertion order. *)
Fixpoint dump (v : pyval) : string :=
  match v with
  | PNone => "null"
  | PBool true => "true"
  | PBool false => "false"
  | PInt z => repr_int z
  | PStr s => encode_basestring s
  | PList l | PTuple l => "[" ++ join ", " (map dump l) ++ "]"
  | PDict d =>
      "{" ++ join ", "
        (map (fun kv => encode_basestring (fst kv) ++ ": " ++ dump (snd kv)) d)
      ++ "}"
  end.

End Json.
Import Json.

(* ================================================================== *)
(** ** [hashlib.sha256] *)

Module Hashlib.

(** Words are 32 bits wide: integers below [2 ^ 32], sums wrapped. *)

Definition wrap32 (x : Z) : Z := x mod 2 ^ 32.

Definition add32 (x y : Z) : Z := wrap32 (x + y).

Definition rotr (n x : Z) : Z :=
  Z.lor (Z.shiftr x n) (wrap32 (Z.shiftl x (32 - n))).

Definition not32 (x : Z) : Z := Z.lxor x (2 ^ 32 - 1).

Definition xor3 (x y z : Z) : Z := Z.lxor (Z.lxor x y) z.

Definition choose (e f g : Z) : Z :=
  Z.lxor (Z.land e f) (Z.land (not32 e) g).

Definition majority (a b c : Z) : Z :=
  xor3 (Z.land a b) (Z.land a c) (Z.land b c).

Definition big_sigma0 (a : Z) : Z := xor3 (rotr 2 a) (rotr 13 a) (rotr 22 a).
Definition big_sigma1 (e : Z) : Z := xor3 (rotr 6 e) (rotr 11 e) (rotr 25 e).
Definition small_sigma0 (w : Z) : Z :=
  xor3 (rotr 7 w) (rotr 18 w) (Z.shiftr w 3).
Definition small_sigma1 (w : Z) : Z :=
  xor3 (rotr 17 w) (rotr 19 w) (Z.shiftr w 10).

(** The constants of the algorithm are the first 32 bits of the
    fractional parts of the square roots (initial state) and of the cube
    roots (round constants) of the first primes. *)
Definition first_primes : list Z :=
  [2; 3; 5; 7; 11; 13; 17; 19; 23; 29; 31; 37; 41; 43; 47; 53; 59; 61; 67;
   71; 73; 79; 83; 89; 97; 101; 103; 107; 109; 113; 127; 131; 137; 139; 149;
   151; 157; 163; 167; 173; 179; 181; 191; 193; 197; 199; 211; 223; 227;
   229; 233; 239; 241; 251; 257; 263; 269; 271; 277; 281; 283; 293; 307;
   311].

(** The largest [r] below [2 ^ bits] with [r ^ 3 <= n], one bit at a time. *)
Fixpoint cube_root_bits (bits : nat) (n r : Z) : Z :=
  match bits with
  | O => r
  | S b =>
      let r' := r + 2 ^ Z.of_nat b in
      cube_root_bits b n (if r' * r' * r' <=? n then r' else r)
  end.

Definition initial_state : list Z :=
  Eval vm_compute in
    map (fun p => wrap32 (Z.sqrt (p * 2 ^ 64))) (firstn 8 first_primes).

Definition round_constants : list Z :=
  Eval vm_compute in
    map (fun p => wrap32 (cube_root_bits 36 (p * 2 ^ 96) 0)) first_primes.

(** [text.encode()], for a text of code points below 128. *)
Definition bytes_of (text : string) : list Z :=
  map (fun c => Z.of_N (N_of_ascii c)) (list_ascii_of_string text).

Fixpoint big_endian (width : nat) (x : Z) : list Z :=
  match width with
  | O => []
  | S w => (Z.shiftr x (8 * Z.of_nat w)) mod 256 :: big_endian w x
  end.

(** The message, a one bit, zeros up to 56 modulo 64 bytes, and the
    length in bits on 8 bytes. *)
Definition pad (msg : list Z) : list Z :=
  let len := Z.of_nat (List.length msg) in
  let zeros := Z.to_nat ((55 - len) mod 64) in
  (msg ++ [128] ++ repeat 0 zeros ++ big_endian 8 (8 * len))%list.

Fixpoint words_of (fuel : nat) (bytes : list Z) : list Z :=
  match fuel, bytes with
  | S f, b0 :: b1 :: b2 :: b3 :: rest =>
      (((b0 * 256 + b1) * 256 + b2) * 256 + b3) :: words_of f rest
  | _, _ => []
  end.

(** The message schedule, latest word first. *)
Fixpoint extend (n : nat) (w : list Z) : list Z :=
  match n with
  | O => w
  | S n' =>
      let x :=
        add32 (add32 (small_sigma1 (nth 1 w 0)) (nth 6 w 0))
              (add32 (small_sigma0 (nth 14 w 0)) (nth 15 w 0)) in
      extend n' (x :: w)
  end.

(** One round on the working variables [a] to [h]. *)
Definition round (s : list Z) (kw : Z * Z) : list Z :=
  match s with
  | [a; b; c; d; e; f; g; h] =>
      let t1 :=
        add32 (add32 (add32 h (big_sigma1 e)) (choose e f g))
              (add32 (fst kw) (snd kw)) in
      let t2 := add32 (big_sigma0 a) (majority a b c) in
      [add32 t1 t2; a; b; c; add32 d t1; e; f; g]
  | _ => s
  end.

Definition compress (s : list Z) (block : list Z) : list Z :=
  let w := rev (extend 48 (rev block)) in
  let s' := fold_left round (combine round_constants w) s in
  map (fun xy => add32 (fst xy) (snd xy)) (combine s s').

Fixpoint blocks (fuel : nat) (words : list Z) (s : list Z) : list Z :=
  match fuel, words with
  | S f, _ :: _ => blocks f (skipn 16 words) (compress s (firstn 16 words))
  | _, _ => s
  end.

Definition hex_char (n : Z) : ascii :=
  ascii_of_N (Z.to_N (if n <? 10 then 48 + n else 87 + n)).

Fixpoint hex (digits : nat) (x : Z) : string :=
  match digits with
  | O => ""
  | S d => String (hex_char ((Z.shiftr x (4 * Z.of_nat d)) mod 16)) (hex d x)
  end.

(** [hashlib.sha256(text.encode()).hexdigest()] for an ASCII [text]. *)
Definition sha256 (text : string) : string :=
  let bytes := pad (bytes_of text) in
  let words := words_of (List.length bytes) bytes in
  let final := blocks (List.length words) words initial_state in
  String.concat "" (map (hex 8) final).

End Hashlib.

(* ================================================================== *)
(** ** The checksum codec: [_hash_entry] and [verify_integrity] *)

Module Codec.
Section with_digest.
(** The digest function, [hashlib.sha256(text.encode()).hexdigest()] in
    the code ([Hashlib.sha256] above).  The codec is written over any
    digest function: nothing in it depends on which one it is. *)
Variable sha256 : string -> string.

(** [{k: v for k, v in entry.items() if k != 'checksum'}] *)
Definition entry_for_hash (entry : pydict) : pydict :=
  filter (fun kv => negb (String.eqb (fst kv) "checksum")) entry.

Definition _hash_entry (entry : pydict) : string :=
  sha256 (dumps (PDict (entry_for_hash entry))).

Definition verify_integrity (entry : pydict) : bool :=
  if negb (dict_contains entry "checksum") then false
  else
    match dict_getitem entry "checksum" with
    | Some stored_checksum => eq_str stored_checksum (_hash_entry entry)
    | None => false
    end.
End with_digest.
End Codec.
Import Codec.

(* ================================================================== *)
(** ** Exceptions *)

Inductive exn : Type :=
| TypeError
| AttributeError
| JSONDecodeError
| OSError
| UnicodeEncodeError.

Inductive outcome (A : Type) : Type :=
| Return (a : A)
| Raise (e : exn).
Arguments Return {A} a.
Arguments Raise {A} e.

(* ================================================================== *)
(** ** The resume reconciler: [resume_on_startup] *)

Module Resume.

(** What the reconciler sees of the operating system. *)
Record disk : Type := {
  (** [str(Path(dir) / name)] *)
  joinpath : string -> string -> string;
  (** [Path(p).exists()].  It answers [False] for a path that is not
      there, and on the Python versions whose [pathlib] lets them
      through it raises the errors of [stat] that are not about a
      missing file (a name longer than the file system allows, say). *)
  path_exists : string -> outcome bool;
  (** [json.loads(Path(p).read_text())]; [None] when either call raises *)
  read_json : string -> option pyval;
  (** the names of the entries of a directory, in the order the
      operating system lists them *)
  listdir : string -> list string
}.

(** The dict returned by [_init_echo_dirs]. *)
Record echo_paths : Type := {
  base : string;
  plans : string;
  logs : string;
  checkpoints : string;
  state : string
}.

(** The lines the reconciler prints. *)
Inductive notice : Type :=
| resume_skipped                       (* could not read state.json *)
| plan_file_missing (plan_name : string)
| resume_found (plan_name : string) (completed : list Z) (next_step : Z).

Fixpoint string_rev (s : string) : string :=
  match s with
  | EmptyString => EmptyString
  | String c rest => string_rev rest ++ String c EmptyString
  end.

(** [name.endswith(suffix)] *)
Definition endswith (suffix name : string) : bool :=
  String.prefix (string_rev suffix) (string_rev name).

(** [fnmatch] of the pattern [step-*.ok]: the name starts with [step-],
    ends with [.ok], and the two do not overlap. *)
Definition glob_match (name : string) : bool :=
  String.prefix "step-" name && endswith ".ok" name
  && (8 <=? String.length name)%nat.

(** [checkpoint_dir.glob('step-*.ok')], as names. *)
Definition glob_step_ok (fs : disk) (dir : string) : list string :=
  filter glob_match (listdir fs dir).

(** [name.rfind('.')] *)
Fixpoint rfind_dot (s : string) : option nat :=
  match s with
  | EmptyString => None
  | String c rest =>
      match rfind_dot rest with
      | Some i => Some (S i)
      | None => if Ascii.eqb c "." then Some O else None
      end
  end.

(** [PurePath.stem]: the name without its last suffix. *)
Definition stem (name : string) : string :=
  match rfind_dot name with
  | Some i =>
      if ((0 <? i) && (i <? String.length name - 1))%nat
      then String.substring 0 i name
      else name
  | None => name
  end.

(** [s.split('-', 1)[1]]; [None] stands for [IndexError]. *)
Fixpoint split_dash_1 (s : string) : option string :=
  match s with
  | EmptyString => None
  | String c rest => if Ascii.eqb c "-" then Some rest else split_dash_1 rest
  end.

(** The characters [int] skips around a number: the ASCII white space,
    U+0085 and U+00A0. *)
Definition is_space (c : ascii) : bool :=
  let n := N_of_ascii c in
  (((9 <=? n) && (n <=? 13)) || (n =? 32) || (n =? 133) || (n =? 160))%N.

Fixpoint lstrip (s : string) : string :=
  match s with
  | String c rest => if is_space c then lstrip rest else s
  | EmptyString => EmptyString
  end.

Definition strip (s : string) : string :=
  string_rev (lstrip (string_rev (lstrip s))).

Definition digit_value (c : ascii) : option Z :=
  let n := N_of_ascii c in
  if ((48 <=? n) && (n <=? 57))%N then Some (Z.of_N n - 48) else None.

(** The digits of a decimal literal after the first one: a digit may be
    preceded by one underscore. *)
Fixpoint int_digits (acc : Z) (s : string) : option Z :=
  match s with
  | EmptyString => Some acc
  | String c rest =>
      match digit_value c with
      | Some d => int_digits (10 * acc + d) rest
      | None =>
          if Ascii.eqb c "_" then
            match rest with
            | String c' rest' =>
                match digit_value c' with
                | Some d => int_digits (10 * acc + d) rest'
                | None => None
                end
            | EmptyString => None
            end
          else None
      end
  end.

Definition int_unsigned (s : string) : option Z :=
  match s with
  | String c rest =>
      match digit_value c with
      | Some d => int_digits d rest
      | None => None
      end
  | EmptyString => None
  end.

(** [int(s)] in base ten; [None] stands for [ValueError]. *)
Definition int_of_str (s : string) : option Z :=
  match strip s with
  | String c rest =>
      if Ascii.eqb c "-" then option_map Z.opp (int_unsigned rest)
      else if Ascii.eqb c "+" then int_unsigned rest
      else int_unsigned (String c rest)
  | EmptyString => None
  end.

(** One turn of the marker loop: the step a marker encodes, or nothing
    when [IndexError] or [ValueError] is caught. *)
Definition marker_step (name : string) : option Z :=
  match split_dash_1 (stem name) with
  | Some digits => int_of_str digits
  | None => None
  end.

Fixpoint collect_steps (markers : list string) : list Z :=
  match markers with
  | [] => []
  | m :: rest =>
      match marker_step m with
      | Some n => n :: collect_steps rest
      | None => collect_steps rest
      end
  end.

(** [sorted] on a list of [int]. *)
Fixpoint insert_sorted (x : Z) (l : list Z) : list Z :=
  match l with
  | [] => [x]
  | y :: rest => if x <=? y then x :: l else y :: insert_sorted x rest
  end.

Fixpoint sorted (l : list Z) : list Z :=
  match l with
  | [] => []
  | x :: rest => insert_sorted x (sorted rest)
  end.

(** [max] on a non-empty list of [int]. *)
Definition max_of (x : Z) (l : list Z) : Z := fold_left Z.max l x.

(** [max(completed_steps) + 1 if completed_steps else 1] *)
Definition next_step_of (completed_steps : list Z) : Z :=
  match completed_steps with
  | [] => 1
  | x :: rest => max_of x rest + 1
  end.

(** [resume_on_startup] on a standard output that takes every line: the
    value returned (or the exception that escapes) and the lines
    printed.  [paths] is [None] when the engine has no [echo_paths]
    attribute yet.  [resume_on_startup_to] below is the same function
    on a standard output that may refuse a line. *)
Definition resume_on_startup (fs : disk) (paths : option echo_paths)
  : outcome (option pyval) * list notice :=
  match paths with
  | None => (Return None, [])
  | Some p =>
      match path_exists fs (state p) with
      | Raise e => (Raise e, [])
      | Return false => (Return None, [])
      | Return true =>
        match read_json fs (state p) with
        | None => (Return None, [resume_skipped])
        | Some (PDict d as st) =>
            let plan_name := dict_get d "current_plan" PNone in
            if negb (truthy plan_name) then (Return (Some st), [])
            else
              match plan_name with
              | PStr name =>
                  let plan_file := joinpath fs (plans p) name in
                  match path_exists fs plan_file with
                  | Raise e => (Raise e, [])
                  | Return false =>
                      (Return (Some st), [plan_file_missing name])
                  | Return true =>
                    let completed_steps :=
                      collect_steps (glob_step_ok fs (checkpoints p)) in
                    let next_step := next_step_of completed_steps in
                    let resume_payload :=
                      [("state", st);
                       ("plan_file", PStr plan_file);
                       ("completed_steps",
                         PList (map PInt (sorted completed_steps)));
                       ("next_step", PInt next_step)] in
                    (Return (Some (PDict resume_payload)),
                     [resume_found name (sorted completed_steps) next_step])
                  end
              | _ => (Raise TypeError, [])
              end
        | Some _ => (Raise AttributeError, [])
        end
      end
  end.

(** What [print] needs of the standard output: the lines its encoding
    can write.  The three lines of the reconciler start with a sign
    outside Latin-1 and go on with a name read from [state.json], so a
    console in [cp1252] writes none of them, and no encoding writes a
    name that holds a lone surrogate; [print] then raises
    [UnicodeEncodeError]. *)
Definition stdout : Type := notice -> bool.

(** [print(line)] and then [return value]; no [print] of the reconciler
    sits in a [try]. *)
Definition print_and_return (out : stdout) (line : notice)
    (value : option pyval) : outcome (option pyval) * list notice :=
  if out line then (Return value, [line])
  else (Raise UnicodeEncodeError, []).

(** [resume_on_startup], with the standard output it prints to. *)
Definition resume_on_startup_to (out : stdout) (fs : disk)
    (paths : option echo_paths) : outcome (option pyval) * list notice :=
  match paths with
  | None => (Return None, [])
  | Some p =>
      match path_exists fs (state p) with
      | Raise e => (Raise e, [])
      | Return false => (Return None, [])
      | Return true =>
        match read_json fs (state p) with
        | None => print_and_return out resume_skipped None
        | Some (PDict d as st) =>
            let plan_name := dict_get d "current_plan" PNone in
            if negb (truthy plan_name) then (Return (Some st), [])
            else
              match plan_name with
              | PStr name =>
                  let plan_file := joinpath fs (plans p) name in
                  match path_exists fs plan_file with
                  | Raise e => (Raise e, [])
                  | Return false =>
                      print_and_return out (plan_file_missing name) (Some st)
                  | Return true =>
                    let completed_steps :=
                      collect_steps (glob_step_ok fs (checkpoints p)) in
                    let next_step := next_step_of completed_steps in
                    let resume_payload :=
                      [("state", st);
                       ("plan_file", PStr plan_file);
                       ("completed_steps",
                         PList (map PInt (sorted completed_steps)));
                       ("next_step", PInt next_step)] in
                    print_and_return out
                      (resume_found name (sorted completed_steps) next_step)
                      (Some (PDict resume_payload))
                  end
              | _ => (Raise TypeError, [])
              end
        | Some _ => (Raise AttributeError, [])
        end
      end
  end.

End Resume.

(* ================================================================== *)
(** ** The engine: session journal and evolution aggregate *)

Module Engine.

(** A reading of [datetime.now()], with the two renderings the code
    takes of it. *)
Record datetime : Type := {
  isoformat : string;
  (** [strftime('%Y%m%d_%H%M%S')] *)
  strftime_compact : string
}.

Definition EXTERNAL_INTEGRATION_AVAILABLE : bool := false.

(** An entry of [evolution_data['pattern_recognition']]. *)
Record pattern_entry : Type := {
  timestamp : string;
  pattern : string;
  description : string;
  evidence : pydict
}.

(** [evolution_data], with the keys [_load_evolution] gives it. *)
Record evolution : Type := {
  created : string;
  total_sessions : Z;
  total_thoughts : Z;
  learning_milestones : list pydict;
  pattern_recognition : list pattern_entry;
  system_understanding : pydict;
  external_signals_created : Z;
  sessions : list pydict
}.

(** The attributes of an [EchoMemoryEngine], the two files it writes,
    and the clock it reads. *)
Record engine : Type := {
  echo_state : option pyval;
  session_id : string;
  (** the records handed to [json.dump] for [session_<id>.jsonl], one
      for each line written, oldest first; the file holds their JSON
      text, not the records *)
  session_file : list pydict;
  thoughts : list pydict;
  (** the last document written to [evolution.json], if any *)
  evolution_file : option evolution;
  evolution_data : evolution;
  (** [clock n] is what the [n]-th call of [datetime.now()] returns *)
  clock : nat -> datetime;
  ticks : nat
}.

Definition with_evolution_data (self : engine) (e : evolution) : engine :=
  {| echo_state := echo_state self;
     session_id := session_id self;
     session_file := session_file self;
     thoughts := thoughts self;
     evolution_file := evolution_file self;
     evolution_data := e;
     clock := clock self;
     ticks := ticks self |}.

(** [datetime.now()] *)
Definition datetime_now (self : engine) : datetime * engine :=
  (clock self (ticks self),
   {| echo_state := echo_state self;
      session_id := session_id self;
      session_file := session_file self;
      thoughts := thoughts self;
      evolution_file := evolution_file self;
      evolution_data := evolution_data self;
      clock := clock self;
      ticks := S (ticks self) |}).

(** [_save_evolution] *)
Definition _save_evolution (self : engine) : engine :=
  {| echo_state := echo_state self;
     session_id := session_id self;
     session_file := session_file self;
     thoughts := thoughts self;
     evolution_file := Some (evolution_data self);
     evolution_data := evolution_data self;
     clock := clock self;
     ticks := ticks self |}.

(** [self.thoughts.append(entry)] and [json.dump(entry, f)] on the
    session file opened for appending. *)
Definition append_to_session_log (self : engine) (entry : pydict) : engine :=
  {| echo_state := echo_state self;
     session_id := session_id self;
     session_file := session_file self ++ [entry];
     thoughts := thoughts self ++ [entry];
     evolution_file := evolution_file self;
     evolution_data := evolution_data self;
     clock := clock self;
     ticks := ticks self |}.

Definition incr_total_sessions (e : evolution) : evolution :=
  {| created := created e;
     total_sessions := total_sessions e + 1;
     total_thoughts := total_thoughts e;
     learning_milestones := learning_milestones e;
     pattern_recognition := pattern_recognition e;
     system_understanding := system_understanding e;
     external_signals_created := external_signals_created e;
     sessions := sessions e |}.

Definition incr_total_thoughts (e : evolution) : evolution :=
  {| created := created e;
     total_sessions := total_sessions e;
     total_thoughts := total_thoughts e + 1;
     learning_milestones := learning_milestones e;
     pattern_recognition := pattern_recognition e;
     system_understanding := system_understanding e;
     external_signals_created := external_signals_created e;
     sessions := sessions e |}.

Definition incr_external_signals_created (e : evolution) : evolution :=
  {| created := created e;
     total_sessions := total_sessions e;
     total_thoughts := total_thoughts e;
     learning_milestones := learning_milestones e;
     pattern_recognition := pattern_recognition e;
     system_understanding := system_understanding e;
     external_signals_created := external_signals_created e + 1;
     sessions := sessions e |}.

Definition append_session (e : evolution) (m : pydict) : evolution :=
  {| created := created e;
     total_sessions := total_sessions e;
     total_thoughts := total_thoughts e;
     learning_milestones := learning_milestones e;
     pattern_recognition := pattern_recognition e;
     system_understanding := system_understanding e;
     external_signals_created := external_signals_created e;
     sessions := sessions e ++ [m] |}.

Definition append_pattern (e : evolution) (p : pattern_entry) : evolution :=
  {| created := created e;
     total_sessions := total_sessions e;
     total_thoughts := total_thoughts e;
     learning_milestones := learning_milestones e;
     pattern_recognition := pattern_recognition e ++ [p];
     system_understanding := system_understanding e;
     external_signals_created := external_signals_created e;
     sessions := sessions e |}.

Definition append_milestone (e : evolution) (m : pydict) : evolution :=
  {| created := created e;
     total_sessions := total_sessions e;
     total_thoughts := total_thoughts e;
     learning_milestones := learning_milestones e ++ [m];
     pattern_recognition := pattern_recognition e;
     system_understanding := system_understanding e;
     external_signals_created := external_signals_created e;
     sessions := sessions e |}.

Definition set_understanding (e : evolution) (component : string) (v : pyval)
  : evolution :=
  {| created := created e;
     total_sessions := total_sessions e;
     total_thoughts := total_thoughts e;
     learning_milestones := learning_milestones e;
     pattern_recognition := pattern_recognition e;
     system_understanding := dict_setitem (system_understanding e) component v;
     external_signals_created := external_signals_created e;
     sessions := sessions e |}.

(** The line feed of the f-strings. *)
Definition nl : string := String "010" "".

(** [x or {}] for an optional dict. *)
Definition or_empty_dict (x : option pydict) : pydict :=
  match x with
  | Some (kv :: rest) => kv :: rest
  | _ => []
  end.

(** [x or []] for an optional list of [str]. *)
Definition or_empty_list (x : option (list string)) : list string :=
  match x with
  | Some (a :: rest) => a :: rest
  | _ => []
  end.

(** An optional dict as a value: [None] or the dict. *)
Definition optional_dict (x : option pydict) : pyval :=
  match x with
  | Some d => PDict d
  | None => PNone
  end.

(** [_load_evolution]: the document on disk, or a fresh one. *)
Definition _load_evolution (on_disk : option evolution) (self : engine)
  : evolution * engine :=
  match on_disk with
  | Some e => (e, self)
  | None =>
      let (now, self) := datetime_now self in
      ({| created := isoformat now;
          total_sessions := 0;
          total_thoughts := 0;
          learning_milestones := [];
          pattern_recognition := [];
          system_understanding := [];
          external_signals_created := 0;
          sessions := [] |}, self)
  end.

Definition _log_session_start (self : engine) : engine :=
  let (now, self) := datetime_now self in
  let session_metadata :=
    [("session_id", PStr (session_id self));
     ("started", PStr (isoformat now));
     ("context", PStr "EchoCopi Framework Session");
     ("agent_version", PStr "Generic AI Agent")] in
  let self :=
    with_evolution_data self (incr_total_sessions (evolution_data self)) in
  let self :=
    with_evolution_data self
      (append_session (evolution_data self) session_metadata) in
  _save_evolution self.

(** [EchoMemoryEngine.__init__], after [resume_on_startup] has returned
    [resumed] and with [on_disk] the content of [evolution.json]. *)
Definition init (resumed : option pyval) (on_disk : option evolution)
    (clock : nat -> datetime) : engine :=
  let start := clock O in
  let self :=
    {| echo_state := resumed;
       session_id := strftime_compact start;
       session_file := [];
       thoughts := [];
       evolution_file := on_disk;
       evolution_data :=
         {| created := ""; total_sessions := 0; total_thoughts := 0;
            learning_milestones := []; pattern_recognition := [];
            system_understanding := []; external_signals_created := 0;
            sessions := [] |};
       clock := clock;
       ticks := 1 |} in
  let (e, self) := _load_evolution on_disk self in
  _log_session_start (with_evolution_data self e).

(** [category_map.get(thought_type, 'general_insight')] *)
Definition category_of (thought_type : string) : string :=
  if String.eqb thought_type "pattern_recognition" then "code_pattern"
  else if String.eqb thought_type "problem_solving" then "solution_approach"
  else if String.eqb thought_type "system_understanding"
       then "architecture_insight"
  else if String.eqb thought_type "user_interaction" then "user_preference"
  else if String.eqb thought_type "learning" then "evolution_milestone"
  else "general_insight".

Definition _create_external_signal (thought_type content : string)
    (context : option pydict) (self : engine) : pydict * engine :=
  let category := category_of thought_type in
  let (now, self) := datetime_now self in
  ([("topic", PStr ("Echo_" ++ category ++ "_" ++ strftime_compact now));
    ("content", PDict [("thought", PStr content);
                        ("type", PStr thought_type);
                        ("context", optional_dict context);
                        ("value", PStr "AI insight for external system")]);
    ("tags", PList [PStr "ai_thought"; PStr "external_signal"; PStr category]);
    ("references", PDict [("session_id", PStr (session_id self))])],
   self).

Section with_digest.
Variable sha256 : string -> string.

Definition log_thought (thought_type content : string)
    (context : option pydict) (create_signal : bool) (self : engine)
  : pydict * engine :=
  let (now, self) := datetime_now self in
  let timestamp := isoformat now in
  let thought_entry :=
    [("timestamp", PStr timestamp);
     ("session_id", PStr (session_id self));
     ("type", PStr thought_type);
     ("content", PStr content);
     ("context", PDict (or_empty_dict context));
     ("signal_created", PBool false)] in
  let (thought_entry, self) :=
    if create_signal && EXTERNAL_INTEGRATION_AVAILABLE then
      let (signal, self) :=
        _create_external_signal thought_type content context self in
      let thought_entry :=
        dict_setitem thought_entry "signal_created" (PBool true) in
      let thought_entry :=
        dict_setitem thought_entry "signal_topic"
          (dict_get signal "topic" (PStr "unknown")) in
      (thought_entry,
       with_evolution_data self
         (incr_external_signals_created (evolution_data self)))
    else (thought_entry, self) in
  let thought_entry :=
    dict_setitem thought_entry "checksum"
      (PStr (_hash_entry sha256 thought_entry)) in
  let self := append_to_session_log self thought_entry in
  let self :=
    with_evolution_data self (incr_total_thoughts (evolution_data self)) in
  let self := _save_evolution self in
  (thought_entry, self).

Definition recognize_pattern (pattern_name description : string)
    (evidence : option pydict) (notify_external : bool) (self : engine)
  : pydict * engine :=
  let content :=
    "Pattern Recognized: " ++ pattern_name ++ nl ++ description in
  let (now, self) := datetime_now self in
  let pattern_entry :=
    {| timestamp := isoformat now;
       pattern := pattern_name;
       description := description;
       evidence := or_empty_dict evidence |} in
  let self :=
    if negb (existsb (String.eqb pattern_name)
               (map pattern (pattern_recognition (evolution_data self))))
    then
      _save_evolution
        (with_evolution_data self
           (append_pattern (evolution_data self) pattern_entry))
    else self in
  log_thought "pattern_recognition" content
    (Some [("pattern", PStr pattern_name);
           ("evidence", optional_dict evidence)])
    notify_external self.

Definition learn_preference (preference_name description : string)
    (examples : option (list string)) (notify_external : bool)
    (self : engine) : pydict * engine :=
  let content :=
    "Learned Preference: " ++ preference_name ++ nl ++ description in
  log_thought "user_interaction" content
    (Some [("preference", PStr preference_name);
           ("examples", PList (map PStr (or_empty_list examples)))])
    notify_external self.

Definition understand_system (component understanding : string)
    (connections : option (list string)) (notify_external : bool)
    (self : engine) : pydict * engine :=
  let content :=
    "System Understanding: " ++ component ++ nl ++ understanding in
  let (now, self) := datetime_now self in
  let self :=
    _save_evolution
      (with_evolution_data self
         (set_understanding (evolution_data self) component
            (PDict [("understanding", PStr understanding);
                    ("connections",
                      PList (map PStr (or_empty_list connections)));
                    ("learned", PStr (isoformat now))]))) in
  log_thought "system_understanding" content
    (Some [("component", PStr component);
           ("connections", PList (map PStr (or_empty_list connections)))])
    notify_external self.

Definition milestone (milestone_name description impact : string)
    (notify_external : bool) (self : engine) : pydict * engine :=
  let (now, self) := datetime_now self in
  let milestone_entry :=
    [("timestamp", PStr (isoformat now));
     ("milestone", PStr milestone_name);
     ("description", PStr description);
     ("impact", PStr impact)] in
  let self :=
    _save_evolution
      (with_evolution_data self
         (append_milestone (evolution_data self) milestone_entry)) in
  let content :=
    "Milestone: " ++ milestone_name ++ nl ++ description ++ nl
    ++ "Impact: " ++ impact in
  log_thought "learning" content (Some milestone_entry) notify_external self.

(** The calls a client can make on an engine. *)
Inductive call : Type :=
| call_log_session_start
| call_log_thought (thought_type content : string)
    (context : option pydict) (create_signal : bool)
| call_recognize_pattern (pattern_name description : string)
    (evidence : option pydict) (notify_external : bool)
| call_learn_preference (preference_name description : string)
    (examples : option (list string)) (notify_external : bool)
| call_understand_system (component understanding : string)
    (connections : option (list string)) (notify_external : bool)
| call_milestone (milestone_name description impact : string)
    (notify_external : bool).

Definition run_call (c : call) (self : engine) : engine :=
  match c with
  | call_log_session_start => _log_session_start self
  | call_log_thought t c ctx sig => snd (log_thought t c ctx sig self)
  | call_recognize_pattern n d ev ne => snd (recognize_pattern n d ev ne self)
  | call_learn_preference n d ex ne => snd (learn_preference n d ex ne self)
  | call_understand_system c u cs ne => snd (understand_system c u cs ne self)
  | call_milestone n d i ne => snd (milestone n d i ne self)
  end.

Definition run_calls (cs : list call) (self : engine) : engine :=
  fold_left (fun e c => run_call c e) cs self.
End with_digest.

(** Whether a value can be a dict key: lists and dicts are unhashable,
    a tuple is hashable when its items are. *)
Fixpoint hashable (v : pyval) : bool :=
  match v with
  | PList _ | PDict _ => false
  | PTuple l => forallb hashable l
  | _ => true
  end.

(** [a == b] between hashable values, as a dict compares keys: a [bool]
    equals the [int] 0 or 1 it stands for, tuples are compared item by
    item. *)
Fixpoint key_eqb (a b : pyval) : bool :=
  match a, b with
  | PNone, PNone => true
  | PBool x, PBool y => Bool.eqb x y
  | PBool x, PInt z | PInt z, PBool x => z =? (if x then 1 else 0)
  | PInt x, PInt y => x =? y
  | PStr x, PStr y => String.eqb x y
  | PTuple x, PTuple y =>
      (fix items (x y : list pyval) : bool :=
         match x, y with
         | [], [] => true
         | a' :: x', b' :: y' => key_eqb a' b' && items x' y'
         | _, _ => false
         end) x y
  | _, _ => false
  end.

(** [thought_types[t] = thought_types.get(t, 0) + 1] on a dict from
    hashable keys to [int], in insertion order. *)
Fixpoint count_key (thought_types : list (pyval * Z)) (t : pyval)
  : list (pyval * Z) :=
  match thought_types with
  | [] => [(t, 0 + 1)]
  | (k, n) :: rest =>
      if key_eqb k t then (k, n + 1) :: rest
      else (k, n) :: count_key rest t
  end.

(** How [reflect] ends: with its result, with the [KeyError] of
    [thought['type']] on a record without that key, or with the
    [TypeError] of an unhashable type used as a key. *)
Inductive reflected (A : Type) : Type :=
| Reflected (a : A)
| RaisedKeyError
| RaisedTypeError.
Arguments Reflected {A} a.
Arguments RaisedKeyError {A}.
Arguments RaisedTypeError {A}.

(** The loop of [reflect] over [self.thoughts]. *)
Fixpoint thought_breakdown_of (thoughts : list pydict)
    (thought_types : list (pyval * Z)) : reflected (list (pyval * Z)) :=
  match thoughts with
  | [] => Reflected thought_types
  | thought :: rest =>
      match dict_getitem thought "type" with
      | None => RaisedKeyError
      | Some t =>
          if hashable t then thought_breakdown_of rest (count_key thought_types t)
          else RaisedTypeError
      end
  end.

(** [sum(1 for t in self.thoughts if t.get('signal_created'))] *)
Definition count_signals (thoughts : list pydict) : Z :=
  Z.of_nat
    (List.length
       (filter (fun t => truthy (dict_get t "signal_created" PNone)) thoughts)).

(** The dict returned by [reflect]. *)
Record reflection : Type := {
  r_session_id : string;
  r_duration : string;
  thoughts_logged : Z;
  thought_breakdown : list (pyval * Z);
  signals_created : Z;
  patterns_recognized : Z;
  system_components_understood : Z;
  total_milestones : Z
}.

Definition reflect (self : engine) : reflected reflection :=
  match thought_breakdown_of (thoughts self) [] with
  | RaisedKeyError => RaisedKeyError
  | RaisedTypeError => RaisedTypeError
  | Reflected thought_types =>
      Reflected
        {| r_session_id := session_id self;
           r_duration := "Active session";
           thoughts_logged := Z.of_nat (List.length (thoughts self));
           thought_breakdown := thought_types;
           signals_created := count_signals (thoughts self);
           patterns_recognized :=
             Z.of_nat (List.length (pattern_recognition (evolution_data self)));
           system_components_understood :=
             Z.of_nat (List.length (system_understanding (evolution_data self)));
           total_milestones :=
             Z.of_nat (List.length (learning_milestones (evolution_data self))) |}
  end.

End Engine.

(* ================================================================== *)
(** ** [verify_session] *)

Module Session.

(** The dict returned by [verify_session]. *)
Record report : Type := {
  session_file : string;
  total_entries : Z;
  verified : Z;
  tampered : Z;
  missing_checksum : Z;
  integrity_rate : string
}.

(** The three counters of the loop. *)
Record counts : Type := {
  n_verified : Z;
  n_tampered : Z;
  n_missing_checksum : Z
}.

(** How the loop body files one entry. *)
Inductive verdict : Type :=
| Verified
| Tampered
| MissingChecksum.

Definition tally (c : counts) (v : verdict) : counts :=
  match v with
  | Verified =>
      {| n_verified := n_verified c + 1; n_tampered := n_tampered c;
         n_missing_checksum := n_missing_checksum c |}
  | Tampered =>
      {| n_verified := n_verified c; n_tampered := n_tampered c + 1;
         n_missing_checksum := n_missing_checksum c |}
  | MissingChecksum =>
      {| n_verified := n_verified c; n_tampered := n_tampered c;
         n_missing_checksum := n_missing_checksum c + 1 |}
  end.

(** ['checksum' in s] for a [str] [s]: substring test. *)
Definition str_contains (needle s : string) : bool :=
  match String.index 0 needle s with
  | Some _ => true
  | None => false
  end.

Section with_digest.
Variable sha256 : string -> string.
(** [f'{(verified/total)*100:.1f}%'], computed in floating point *)
Variable percent_1f : Z -> Z -> string.

(** The loop body on one parsed line.  A line need not hold an object:
    on a string or an array the membership test still answers, and
    subscripting with ['checksum'] then raises [TypeError]; on the
    other values the membership test itself raises. *)
Definition classify (entry : pyval) : outcome verdict :=
  match entry with
  | PDict d =>
      if negb (dict_contains d "checksum") then Return MissingChecksum
      else if verify_integrity sha256 d then Return Verified
      else Return Tampered
  | PStr s =>
      if negb (str_contains "checksum" s) then Return MissingChecksum
      else Raise TypeError
  | PList l | PTuple l =>
      if negb (existsb (fun v => eq_str v "checksum") l)
      then Return MissingChecksum
      else Raise TypeError
  | PNone | PBool _ | PInt _ => Raise TypeError
  end.

(** The loop over the lines; a line is what [json.loads(line.strip())]
    returns, or [None] when it raises. *)
Fixpoint scan (lines : list (option pyval)) (c : counts) : outcome counts :=
  match lines with
  | [] => Return c
  | None :: _ => Raise JSONDecodeError
  | Some entry :: rest =>
      match classify entry with
      | Return v => scan rest (tally c v)
      | Raise e => Raise e
      end
  end.

Definition verify_session (path : string) (lines : list (option pyval))
  : outcome report :=
  match scan lines {| n_verified := 0; n_tampered := 0;
                      n_missing_checksum := 0 |} with
  | Raise e => Raise e
  | Return c =>
      let total := n_verified c + n_tampered c + n_missing_checksum c in
      Return {| session_file := path;
                total_entries := total;
                verified := n_verified c;
                tampered := n_tampered c;
                missing_checksum := n_missing_checksum c;
                integrity_rate :=
                  if 0 <? total then percent_1f (n_verified c) total
                  else "N/A" |}
  end.
End with_digest.

End Session.

(** Test vectors are written with an apostrophe where the JSON text has
    a double quote. *)
Fixpoint sq (s : string) : string :=
  match s with
  | EmptyString => EmptyString
  | String c rest => String (if Ascii.eqb c "'" then dquote else c) (sq rest)
  end.


(** The first entry recorded under a pattern name. *)
Definition lookup_pattern (name : string) (l : list Engine.pattern_entry)
  : option Engine.pattern_entry :=
  find (fun p => String.eqb (Engine.pattern p) name) l.

(** The three counters of one aggregate are at most those of another. *)
Definition counters_le (e1 e2 : Engine.evolution) : Prop :=
  Engine.total_sessions e1 <= Engine.total_sessions e2
  /\ Engine.total_thoughts e1 <= Engine.total_thoughts e2
  /\ Engine.external_signals_created e1
     <= Engine.external_signals_created e2.

(** A clock and an engine to run the model on. *)
Definition sample_clock (n : nat) : Engine.datetime :=
  {| Engine.isoformat :=
       "2025-10-27T09:00:0" ++ NilEmpty.string_of_uint (Nat.to_uint (n mod 10))
       ++ ".000000";
     Engine.strftime_compact :=
       "20251027_09000" ++ NilEmpty.string_of_uint (Nat.to_uint (n mod 10)) |}.

Definition sample_engine : Engine.engine :=
  snd (Engine.recognize_pattern Hashlib.sha256
         "Clean Code Structure"
         "User prefers modular design with clear separation of concerns"
         (Some [("examples",
                  PList [PStr "src/core/ logic separation";
                         PStr "tests/ mirroring src/ structure"])])
         true
         (Engine.init None None sample_clock)).

(** The lengths, in UTF-8 bytes, of the components of a path. *)
Fixpoint component_sizes (path : string) (size : nat) : list nat :=
  match path with
  | EmptyString => [size]
  | String c rest =>
      if Ascii.eqb c "/" then size :: component_sizes rest 0
      else component_sizes rest
             (size + if (N_of_ascii c <? 128)%N then 1 else 2)
  end.

(** [ENAMETOOLONG] on Linux: a component of more than 255 bytes, or a
    path of more than 4095. *)
Definition name_too_long (path : string) : bool :=
  let sizes := component_sizes path 0 in
  existsb (fun n => (255 <? n)%nat) sizes
  || (4095 <? fold_right Nat.add (List.length sizes - 1) sizes)%nat.

(** A disk to run the reconciler on: the files that exist, the parsed
    content of [state.json], and the names in the checkpoint directory.
    Its [exists] raises [OSError] on a name that is too long, as
    [Path.exists] does on Linux under Python 3.11. *)
Definition sample_paths : Resume.echo_paths :=
  {| Resume.base := ".echo_memory/echo_state";
     Resume.plans := ".echo_memory/echo_state/plan";
     Resume.logs := ".echo_memory/echo_state/logs";
     Resume.checkpoints := ".echo_memory/echo_state/checkpoints";
     Resume.state := ".echo_memory/echo_state/state.json" |}.

Definition sample_disk (files : list string) (state_doc : pyval)
    (markers : list string) : Resume.disk :=
  {| Resume.joinpath := fun dir name => dir ++ "/" ++ name;
     Resume.path_exists := fun path =>
       if name_too_long path then Raise OSError
       else Return (existsb (String.eqb path) files);
     Resume.read_json := fun path =>
       if String.eqb path (Resume.state sample_paths) then Some state_doc
       else None;
     Resume.listdir := fun dir =>
       if String.eqb dir (Resume.checkpoints sample_paths) then markers
       else [] |}.

Definition sample_state : pydict :=
  [("version", PInt 1); ("current_plan", PStr "deploy.md");
   ("current_step", PInt 3); ("args", PDict [])].

(** ** Reading the canonical text back

    The definitions below are not part of the engine.  They serve to
    show that the canonical text determines the value it was made
    from. *)

Definition hex_value (c : ascii) : option N :=
  let n := N_of_ascii c in
  if ((48 <=? n) && (n <=? 57))%N then Some (n - 48)%N
  else if ((97 <=? n) && (n <=? 102))%N then Some (n - 87)%N
  else None.

(** The character that one escape at the head of a text stands for and
    the text after it; nothing at a closing quote. *)
Definition unescape_char (s : string) : option (ascii * string) :=
  match s with
  | EmptyString => None
  | String c rest =>
      if Ascii.eqb c dquote then None
      else if Ascii.eqb c "\" then
        match rest with
        | EmptyString => None
        | String x rest' =>
            if Ascii.eqb x dquote then Some (dquote, rest')
            else if Ascii.eqb x "\" then Some ("\"%char, rest')
            else if Ascii.eqb x "b" then Some ("008"%char, rest')
            else if Ascii.eqb x "f" then Some ("012"%char, rest')
            else if Ascii.eqb x "n" then Some ("010"%char, rest')
            else if Ascii.eqb x "r" then Some ("013"%char, rest')
            else if Ascii.eqb x "t" then Some ("009"%char, rest')
            else if Ascii.eqb x "u" then
              match rest' with
              | String _ (String _ (String h (String l rest''))) =>
                  match hex_value h, hex_value l with
                  | Some a, Some b => Some (ascii_of_N (16 * a + b), rest'')
                  | _, _ => None
                  end
              | _ => None
              end
            else None
        end
      else Some (c, rest)
  end.

(** Whether a code point is one half of a surrogate pair. *)
Definition is_surrogate (n : N) : bool := ((55296 <=? n) && (n <=? 57343))%N.

(** The code points that stand for a character: up to U+10FFFF, the
    surrogates left out. *)
Definition scalar_value (n : N) : bool :=
  ((n <=? 1114111) && negb (is_surrogate n))%N.

(** The number four hexadecimal digits at the head of a text stand for,
    and the text after them. *)
Definition hex4_value (s : string) : option (N * string) :=
  match s with
  | String a (String b (String c (String d rest))) =>
      match hex_value a, hex_value b, hex_value c, hex_value d with
      | Some x, Some y, Some z, Some w =>
          Some (4096 * x + 256 * y + 16 * z + w, rest)%N
      | _, _, _, _ => None
      end
  | _ => None
  end.

(** The character a surrogate pair stands for, its first half [a]
    read already, and the text after the pair. *)
Definition low_surrogate_value (a : N) (s : string) : option (N * string) :=
  match s with
  | String c1 (String c2 rest) =>
      if Ascii.eqb c1 "\" && Ascii.eqb c2 "u" then
        match hex4_value rest with
        | Some (b, rest') =>
            Some (65536 + (a - 55296) * 1024 + (b - 56320), rest')%N
        | None => None
        end
      else None
  | _ => None
  end.

(** The code point the digits of a [\u] escape stand for, with the
    escape after them when they are the first half of a pair. *)
Definition u_escape_value (s : string) : option (N * string) :=
  match hex4_value s with
  | Some (a, rest) =>
      if ((55296 <=? a) && (a <? 56320))%N then low_surrogate_value a rest
      else Some (a, rest)
  | None => None
  end.

(** The code point that one escape at the head of a text stands for and
    the text after it. *)
Definition unescape_code_point (s : string) : option (N * string) :=
  match s with
  | EmptyString => None
  | String c rest =>
      if Ascii.eqb c "\" then
        match rest with
        | EmptyString => None
        | String x rest' =>
            if Ascii.eqb x dquote then Some (34, rest')
            else if Ascii.eqb x "\" then Some (92, rest')
            else if Ascii.eqb x "b" then Some (8, rest')
            else if Ascii.eqb x "f" then Some (12, rest')
            else if Ascii.eqb x "n" then Some (10, rest')
            else if Ascii.eqb x "r" then Some (13, rest')
            else if Ascii.eqb x "t" then Some (9, rest')
            else if Ascii.eqb x "u" then u_escape_value rest'
            else None
        end
      else Some (N_of_ascii c, rest)
  end%N.

(** What may follow a value inside a JSON text: nothing, a comma, or a
    closing bracket or brace. *)
Definition value_end (rest : string) : bool :=
  match rest with
  | EmptyString => true
  | String c _ =>
      Ascii.eqb c "," || Ascii.eqb c "]" || Ascii.eqb c "}"
  end.

(** The kind of value a JSON text starts, told by its first character,
    and the kind of a value. *)
Definition kind_of_head (s : string) : nat :=
  match s with
  | EmptyString => 0
  | String c _ =>
      let n := N_of_ascii c in
      if (n =? 110)%N then 1                                (* n *)
      else if ((n =? 116) || (n =? 102))%N then 2           (* t, f *)
      else if ((n =? 45) || ((48 <=? n) && (n <=? 57)))%N then 3
      else if (n =? 34)%N then 4                            (* quote *)
      else if (n =? 91)%N then 5                            (* [ *)
      else if (n =? 123)%N then 6                           (* { *)
      else 0
  end%nat.

Definition kind (v : pyval) : nat :=
  match v with
  | PNone => 1
  | PBool _ => 2
  | PInt _ => 3
  | PStr _ => 4
  | PList _ | PTuple _ => 5
  | PDict _ => 6
  end%nat.

(** What [join] puts after its first part. *)
Definition join_tail (sep : string) (parts : list string) : string :=
  match parts with
  | [] => ""
  | _ => sep ++ join sep parts
  end.

(** The digest function tells two texts apart. *)
Definition no_collision (digest : string -> string) (a b : string) : Prop :=
  digest a = digest b -> a = b.

(** Whether a call is a call of [milestone]. *)
Definition is_milestone_call (c : Engine.call) : bool :=
  match c with
  | Engine.call_milestone _ _ _ _ => true
  | _ => false
  end.

(** Whether a text is made of the ASCII characters from the space to
    the tilde only. *)
Fixpoint all_printable (s : string) : bool :=
  match s with
  | EmptyString => true
  | String c rest =>
      let n := N_of_ascii c in
      ((32 <=? n) && (n <=? 126))%N && all_printable rest
  end.

(** Whether a text holds none of the characters [int] skips. *)
Fixpoint no_space (s : string) : bool :=
  match s with
  | EmptyString => true
  | String c rest => negb (Resume.is_space c) && no_space rest
  end.

(** The number a run of decimal digits stands for, read after [acc]. *)
Fixpoint uint_value (u : Decimal.uint) (acc : Z) : Z :=
  match u with
  | Decimal.Nil => acc
  | Decimal.D0 l => uint_value l (10 * acc + 0)
  | Decimal.D1 l => uint_value l (10 * acc + 1)
  | Decimal.D2 l => uint_value l (10 * acc + 2)
  | Decimal.D3 l => uint_value l (10 * acc + 3)
  | Decimal.D4 l => uint_value l (10 * acc + 4)
  | Decimal.D5 l => uint_value l (10 * acc + 5)
  | Decimal.D6 l => uint_value l (10 * acc + 6)
  | Decimal.D7 l => uint_value l (10 * acc + 7)
  | Decimal.D8 l => uint_value l (10 * acc + 8)
  | Decimal.D9 l => uint_value l (10 * acc + 9)
  end.

(** Whether a text is made of the digits [0-9a-f] only. *)
Fixpoint all_hex (s : string) : bool :=
  match s with
  | EmptyString => true
  | String c rest =>
      match hex_value c with
      | Some _ => all_hex rest
      | None => false
      end
  end.

(* ================================================================== *)
(** * Properties *)

Example sha256_empty :
  Hashlib.sha256 ""
  = "e3b0c44298fc1c149afbf4c8996fb92427ae41e4649b934ca495991b7852b855".
Proof. vm_compute. reflexivity. Qed.

Example sha256_abc :
  Hashlib.sha256 "abc"
  = "ba7816bf8f01cfea414140de5dae2223b00361a396177a9cb410ff61f20015ad".
Proof. vm_compute. reflexivity. Qed.

Example sha256_two_blocks :
  Hashlib.sha256 "12345678901234567890123456789012345678901234567890123456"
  = "0be66ce72c2467e793202906000672306661791622e0ca9adf4a8955b2ed189c".
Proof. vm_compute. reflexivity. Qed.

Example dumps_demo :
  dumps (PDict [("z", PDict [("y", PInt 1); ("x", PInt 2)]);
                ("b", PList [PNone; PBool true; PBool false; PInt (-12); PInt 0]);
                ("a", PStr (String "127" (String "031" (String " "
                         (String dquote (String "\" (String "010"
                           (String "255" "/"))))))));
                ("c", PDict []); ("e", PTuple [PList []])])
  = sq "{'a': '\u007f\u001f \'\\\n\u00ff/', 'b': [null, true, false, -12, 0], 'c': {}, 'e': [[]], 'z': {'x': 2, 'y': 1}}".
Proof. vm_compute. reflexivity. Qed.

Example dump_demo :
  dump (PDict [("b", PList [PInt 1; PNone; PBool true]);
               ("a", PDict [(String "k" (String dquote ""),
                             PStr (String "x" (String "\" (String "y"
                               (String "010" (String "001" (String "127"
                                 (String "233" "")))))))
                            )]);
               ("t", PTuple [PInt 1; PInt 2])])
  = sq "{'b': [1, null, true], 'a': {'k\'': 'x\\y\n\u0001"
    ++ String "127" (String "233" "") ++ sq "'}, 't': [1, 2]}".
Proof. vm_compute. reflexivity. Qed.

Example marker_step_demo :
  map Resume.marker_step
    ["step-1.ok"; "step-01.ok"; "step--3.ok"; "step-1.5.ok"; "step-.ok";
     "step-1_000.ok"; "step- 7 .ok"; "step-+2.ok"; "step-a-1.ok"; "step-1__0.ok"]
  = [Some 1; Some 1; Some (-3); None; None; Some 1000; Some 7; Some 2; None; None].
Proof. vm_compute. reflexivity. Qed.

Example glob_match_demo :
  map Resume.glob_match ["step-1.ok"; "step-.ok"; "step.ok"; "Step-1.ok"; "step-1.ok~"]
  = [true; true; false; false; false].
Proof. vm_compute. reflexivity. Qed.

(** What escapes [resume_on_startup]: a plan name [stat] refuses, a
    state document that is no object, a plan name that is no string. *)
Example resume_raises_demo :
  map (fun state_doc =>
         fst (Resume.resume_on_startup
                (sample_disk [Resume.state sample_paths] state_doc [])
                (Some sample_paths)))
    [PDict [("current_plan",
              PStr (String.concat "" (repeat "0123456789" 500)))];
     PList [PInt 1];
     PDict [("current_plan", PInt 5)];
     PDict [("current_plan", PNone)]]
  = [Raise OSError; Raise AttributeError; Raise TypeError;
     Return (Some (PDict [("current_plan", PNone)]))].
Proof. vm_compute. reflexivity. Qed.

(** ** The string encoder beyond U+00FF *)

(** On the code points of a string of the model, the general encoder is
    the encoder of the model. *)
Lemma escape_code_point_ascii (c : ascii) :
  escape_code_point (N_of_ascii c) = escape_char c.
Proof.
  destruct c as [[] [] [] [] [] [] [] []]; reflexivity.
Qed.

Lemma escape_code_points_model (s : string) :
  escape_code_points (code_points s) = escape s.
Proof.
  induction s as [|c s IH]; simpl; [reflexivity |].
  now rewrite escape_code_point_ascii, IH.
Qed.

(** [json.dumps(chr(0x1F600))] and
    [json.dumps(chr(0xD83D) + chr(0xDE00))] are the same text. *)
Example surrogate_pair_demo :
  escape_code_points [128512%N] = "\ud83d\ude00"
  /\ escape_code_points [55357%N; 56832%N] = "\ud83d\ude00".
Proof. split; reflexivity. Qed.

(** ** Dict operations *)

Section dict_facts.

Lemma dict_contains_setitem (d : pydict) (k : string) (v : pyval) :
  dict_contains (dict_setitem d k v) k = true.
Proof.
  induction d as [|[k' v'] d IH]; simpl.
  - now rewrite String.eqb_refl.
  - destruct (String.eqb k' k) eqn:E; simpl; now rewrite E.
Qed.

Lemma dict_getitem_setitem (d : pydict) (k : string) (v : pyval) :
  dict_getitem (dict_setitem d k v) k = Some v.
Proof.
  induction d as [|[k' v'] d IH]; simpl.
  - now rewrite String.eqb_refl.
  - destruct (String.eqb k' k) eqn:E; simpl; now rewrite E.
Qed.


Lemma entry_for_hash_setitem_checksum (d : pydict) (v : pyval) :
  entry_for_hash (dict_setitem d "checksum" v) = entry_for_hash d.
Proof.
  unfold entry_for_hash.
  induction d as [|[k' v'] d IH]; simpl; [reflexivity|].
  destruct (String.eqb k' "checksum") eqn:E; simpl; rewrite E; simpl.
  - reflexivity.
  - now rewrite IH.
Qed.

End dict_facts.

(** ** The codec *)

Section codec_facts.
Variable sha256 : string -> string.

Lemma hash_entry_setitem_checksum (d : pydict) (v : pyval) :
  _hash_entry sha256 (dict_setitem d "checksum" v) = _hash_entry sha256 d.
Proof.
  unfold _hash_entry. now rewrite entry_for_hash_setitem_checksum.
Qed.

(** Attaching the digest of a record as its checksum makes it verify. *)
Lemma verify_integrity_sealed (d : pydict) :
  verify_integrity sha256
    (dict_setitem d "checksum" (PStr (_hash_entry sha256 d))) = true.
Proof.
  unfold verify_integrity.
  rewrite dict_contains_setitem, dict_getitem_setitem; simpl.
  rewrite hash_entry_setitem_checksum. apply String.eqb_refl.
Qed.

(** [log_thought] returns a record sealed in that way. *)
Lemma log_thought_sealed thought_type content context create_signal self :
  exists d,
    fst (Engine.log_thought sha256 thought_type content context
           create_signal self)
    = dict_setitem d "checksum" (PStr (_hash_entry sha256 d)).
Proof.
  unfold Engine.log_thought.
  destruct (Engine.datetime_now self) as [now self1].
  destruct (create_signal && Engine.EXTERNAL_INTEGRATION_AVAILABLE)%bool.
  - destruct (Engine._create_external_signal _ _ _ _) as [signal self2].
    eexists. reflexivity.
  - eexists. reflexivity.
Qed.

End codec_facts.

(** C1. Every record returned by [log_thought], whatever the kind, the
    content, the context mapping and the signal flag, passes
    [verify_integrity] as it is returned: the checksum, stored as its
    last field, is the digest recomputed over its other fields. *)
Theorem C1_log_thought_verifies :
  forall (sha256 : string -> string) (thought_type content : string)
         (context : option pydict) (create_signal : bool)
         (self : Engine.engine),
    let r := fst (Engine.log_thought sha256 thought_type content context
                    create_signal self) in
    verify_integrity sha256 r = true
    /\ dict_getitem r "checksum" = Some (PStr (_hash_entry sha256 r))
    /\ List.last (keys r) "" = "checksum".
Proof.
  intros sha256 thought_type content context create_signal self r.
  destruct (log_thought_sealed sha256 thought_type content context
              create_signal self) as [d Hd].
  split; [| split].
  - subst r. rewrite Hd. apply verify_integrity_sealed.
  - subst r. rewrite Hd.
    now rewrite dict_getitem_setitem, hash_entry_setitem_checksum.
  - subst r. clear. unfold Engine.log_thought, Engine.datetime_now.
    destruct (create_signal && Engine.EXTERNAL_INTEGRATION_AVAILABLE)%bool;
      reflexivity.
Qed.

(** ** The engine *)

Section engine_facts.
Variable sha256 : string -> string.

(** What [log_thought] does to the engine: the returned record goes
    last in the session file and in [thoughts], and the aggregate gets
    one more thought (and one more signal when one was created). *)
Lemma log_thought_effect thought_type content context create_signal self :
  let res :=
    Engine.log_thought sha256 thought_type content context create_signal
      self in
  Engine.session_file (snd res)
  = (Engine.session_file self ++ [fst res])%list
  /\ Engine.thoughts (snd res) = (Engine.thoughts self ++ [fst res])%list
  /\ exists e,
       (e = Engine.evolution_data self
        \/ e = Engine.incr_external_signals_created
                 (Engine.evolution_data self))
       /\ Engine.evolution_data (snd res) = Engine.incr_total_thoughts e.
Proof.
  unfold Engine.log_thought, Engine.datetime_now.
  destruct (create_signal && Engine.EXTERNAL_INTEGRATION_AVAILABLE)%bool;
    cbn -[dict_setitem _hash_entry];
    (split; [reflexivity | split; [reflexivity |]]);
    eexists; (split; [| reflexivity]); auto.
Qed.

Lemma counters_le_refl e : counters_le e e.
Proof. unfold counters_le; lia. Qed.

Lemma counters_le_trans e1 e2 e3 :
  counters_le e1 e2 -> counters_le e2 e3 -> counters_le e1 e3.
Proof. unfold counters_le; lia. Qed.

Lemma log_thought_counters thought_type content context create_signal self :
  counters_le (Engine.evolution_data self)
    (Engine.evolution_data
       (snd (Engine.log_thought sha256 thought_type content context
               create_signal self))).
Proof.
  destruct (log_thought_effect thought_type content context create_signal
              self) as (_ & _ & e & [He | He] & Hev);
    rewrite Hev, He; unfold counters_le; simpl; lia.
Qed.

Lemma log_session_start_counters self :
  counters_le (Engine.evolution_data self)
    (Engine.evolution_data (Engine._log_session_start self)).
Proof. unfold counters_le; simpl; lia. Qed.

Lemma recognize_pattern_counters name descr ev ne self :
  counters_le (Engine.evolution_data self)
    (Engine.evolution_data
       (snd (Engine.recognize_pattern sha256 name descr ev ne self))).
Proof.
  unfold Engine.recognize_pattern, Engine.datetime_now.
  eapply counters_le_trans; [| apply log_thought_counters].
  destruct (negb _); unfold counters_le; simpl; lia.
Qed.

Lemma understand_system_counters c u cs ne self :
  counters_le (Engine.evolution_data self)
    (Engine.evolution_data
       (snd (Engine.understand_system sha256 c u cs ne self))).
Proof.
  unfold Engine.understand_system, Engine.datetime_now.
  eapply counters_le_trans; [| apply log_thought_counters].
  unfold counters_le; simpl; lia.
Qed.

Lemma milestone_counters n d i ne self :
  counters_le (Engine.evolution_data self)
    (Engine.evolution_data (snd (Engine.milestone sha256 n d i ne self))).
Proof.
  unfold Engine.milestone, Engine.datetime_now.
  eapply counters_le_trans; [| apply log_thought_counters].
  unfold counters_le; simpl; lia.
Qed.

Lemma run_call_counters c self :
  counters_le (Engine.evolution_data self)
    (Engine.evolution_data (Engine.run_call sha256 c self)).
Proof.
  destruct c; simpl.
  - apply log_session_start_counters.
  - apply log_thought_counters.
  - apply recognize_pattern_counters.
  - unfold Engine.learn_preference. apply log_thought_counters.
  - apply understand_system_counters.
  - apply milestone_counters.
Qed.

(** A pattern name that is already recorded leaves the pattern list as
    it is. *)
Lemma recognize_pattern_known name descr ev ne self :
  In name (map Engine.pattern
             (Engine.pattern_recognition (Engine.evolution_data self))) ->
  Engine.pattern_recognition
    (Engine.evolution_data
       (snd (Engine.recognize_pattern sha256 name descr ev ne self)))
  = Engine.pattern_recognition (Engine.evolution_data self).
Proof.
  intros Hin.
  assert (Hex : existsb (String.eqb name)
                  (map Engine.pattern
                     (Engine.pattern_recognition
                        (Engine.evolution_data self))) = true).
  { apply existsb_exists. exists name. split; [exact Hin|].
    apply String.eqb_refl. }
  unfold Engine.recognize_pattern, Engine.datetime_now.
  cbn -[Engine.log_thought existsb]. rewrite Hex. cbn -[Engine.log_thought].
  match goal with
  | |- context [Engine.log_thought ?h ?t ?c ?x ?s ?e] =>
      destruct (log_thought_effect t c x s e) as (_ & _ & e' & [He | He] & Hev)
  end; rewrite Hev, He; reflexivity.
Qed.

End engine_facts.

Lemma lookup_pattern_In name l p :
  lookup_pattern name l = Some p -> In name (map Engine.pattern l).
Proof.
  unfold lookup_pattern. intros H. apply find_some in H as [Hin Heq].
  apply String.eqb_eq in Heq. subst name. now apply in_map.
Qed.

(** C3. When a pattern name is already in the pattern list, calling
    [recognize_pattern] with that name and any other description leaves
    the list as long as it was, and the entry stored under the name is
    still the first one recorded, with its description; the call
    returns normally. *)
Theorem C3_duplicate_pattern_keeps_first :
  forall (sha256 : string -> string) (name descr' : string)
         (evidence : option pydict) (notify_external : bool)
         (self : Engine.engine) (p : Engine.pattern_entry),
    lookup_pattern name
      (Engine.pattern_recognition (Engine.evolution_data self)) = Some p ->
    let self' :=
      snd (Engine.recognize_pattern sha256 name descr' evidence
             notify_external self) in
    let patterns' :=
      Engine.pattern_recognition (Engine.evolution_data self') in
    List.length patterns'
    = List.length (Engine.pattern_recognition (Engine.evolution_data self))
    /\ lookup_pattern name patterns' = Some p
    /\ option_map Engine.description (lookup_pattern name patterns')
       = Some (Engine.description p).
Proof.
  intros sha256 name descr' evidence notify_external self p Hp self' patterns'.
  subst patterns' self'.
  rewrite (recognize_pattern_known sha256 name descr' evidence
             notify_external self (lookup_pattern_In _ _ _ Hp)).
  rewrite Hp. repeat split.
Qed.

Lemma C3_witness :
  let p :=
    {| Engine.timestamp := "2025-10-27T09:00:03.000000";
       Engine.pattern := "Clean Code Structure";
       Engine.description :=
         "User prefers modular design with clear separation of concerns";
       Engine.evidence :=
         [("examples",
            PList [PStr "src/core/ logic separation";
                   PStr "tests/ mirroring src/ structure"])] |} in
  lookup_pattern "Clean Code Structure"
    (Engine.pattern_recognition (Engine.evolution_data sample_engine))
  = Some p
  /\ option_map Engine.description
       (lookup_pattern "Clean Code Structure"
          (Engine.pattern_recognition
             (Engine.evolution_data
                (snd (Engine.recognize_pattern Hashlib.sha256
                        "Clean Code Structure" "Something else entirely"
                        None true sample_engine)))))
     = Some "User prefers modular design with clear separation of concerns".
Proof.
  intros p.
  assert (Hp : lookup_pattern "Clean Code Structure"
                 (Engine.pattern_recognition
                    (Engine.evolution_data sample_engine)) = Some p)
    by (vm_compute; reflexivity).
  split; [exact Hp |].
  exact (proj2 (proj2 (C3_duplicate_pattern_keeps_first Hashlib.sha256
                         "Clean Code Structure" "Something else entirely"
                         None true sample_engine p Hp))).
Defined.

(** C9. The counters [total_sessions], [total_thoughts] and
    [external_signals_created] never go down: after any sequence of
    calls on the engine (session start, journal append, pattern,
    preference, understanding or milestone recording) each of the three
    is at least what it was before. *)
Theorem C9_counters_monotone :
  forall (sha256 : string -> string) (cs : list Engine.call)
         (self : Engine.engine),
    counters_le (Engine.evolution_data self)
      (Engine.evolution_data (Engine.run_calls sha256 cs self)).
Proof.
  intros sha256 cs. unfold Engine.run_calls.
  induction cs as [|c cs IH]; intros self; simpl.
  - apply counters_le_refl.
  - eapply counters_le_trans; [apply run_call_counters | apply IH].
Qed.

(** C10. Calling [recognize_pattern] with a name that is already in the
    pattern list still appends the new event record to the session
    journal (the file and the in-memory list) and still adds one to
    [total_thoughts]; only the insert into the pattern list is left
    out. *)
Theorem C10_duplicate_pattern_still_journalled :
  forall (sha256 : string -> string) (name descr : string)
         (evidence : option pydict) (notify_external : bool)
         (self : Engine.engine),
    In name (map Engine.pattern
               (Engine.pattern_recognition (Engine.evolution_data self))) ->
    let res :=
      Engine.recognize_pattern sha256 name descr evidence notify_external
        self in
    Engine.session_file (snd res)
    = (Engine.session_file self ++ [fst res])%list
    /\ Engine.thoughts (snd res) = (Engine.thoughts self ++ [fst res])%list
    /\ Engine.total_thoughts (Engine.evolution_data (snd res))
       = Engine.total_thoughts (Engine.evolution_data self) + 1
    /\ Engine.pattern_recognition (Engine.evolution_data (snd res))
       = Engine.pattern_recognition (Engine.evolution_data self).
Proof.
  intros sha256 name descr evidence notify_external self Hin res.
  split; [| split; [| split]].
  4: { apply recognize_pattern_known; exact Hin. }
  all: subst res; unfold Engine.recognize_pattern, Engine.datetime_now;
    cbn -[Engine.log_thought existsb];
    replace (existsb _ _) with true
      by (symmetry; apply existsb_exists; exists name;
          split; [exact Hin | apply String.eqb_refl]);
    cbn -[Engine.log_thought];
    match goal with
    | |- context [Engine.log_thought ?h ?t ?c ?x ?s ?e] =>
        destruct (log_thought_effect h t c x s e)
          as (Hf & Ht & e' & [He | He] & Hev)
    end;
    try (rewrite Hf; reflexivity); try (rewrite Ht; reflexivity);
    rewrite Hev, He; reflexivity.
Qed.

Lemma C10_witness :
  In "Clean Code Structure"
    (map Engine.pattern
       (Engine.pattern_recognition (Engine.evolution_data sample_engine)))
  /\ Engine.total_thoughts
       (Engine.evolution_data
          (snd (Engine.recognize_pattern Hashlib.sha256
                  "Clean Code Structure" "Seen again" None true
                  sample_engine)))
     = Engine.total_thoughts (Engine.evolution_data sample_engine) + 1.
Proof.
  assert (Hin : In "Clean Code Structure"
                  (map Engine.pattern
                     (Engine.pattern_recognition
                        (Engine.evolution_data sample_engine))))
    by (vm_compute; left; reflexivity).
  split; [exact Hin |].
  exact (proj1 (proj2 (proj2 (C10_duplicate_pattern_still_journalled
                                Hashlib.sha256 "Clean Code Structure"
                                "Seen again" None true sample_engine Hin)))).
Defined.

(** ** [verify_session] *)

Section session_facts.
Variable sha256 : string -> string.
Variable percent_1f : Z -> Z -> string.

Lemma tally_comm c v w :
  Session.tally (Session.tally c v) w = Session.tally (Session.tally c w) v.
Proof. destruct v, w; reflexivity. Qed.

(** Counting one more entry before the loop or after it is the same. *)
Lemma scan_tally lines : forall c v,
  Session.scan sha256 lines (Session.tally c v)
  = match Session.scan sha256 lines c with
    | Return c' => Return (Session.tally c' v)
    | Raise e => Raise e
    end.
Proof.
  induction lines as [|[entry|] lines IH]; intros c v; simpl;
    try reflexivity.
  destruct (Session.classify sha256 entry) as [w|e]; [|reflexivity].
  rewrite tally_comm. apply IH.
Qed.

Lemma scan_missing entry lines c :
  dict_contains entry "checksum" = false ->
  Session.scan sha256 (Some (PDict entry) :: lines) c
  = Session.scan sha256 lines (Session.tally c Session.MissingChecksum).
Proof. intros Hno. simpl. now rewrite Hno. Qed.

End session_facts.

(** C6. On a record with no [checksum] key [verify_integrity] returns
    [False] (it is a total function: nothing is raised), and
    [verify_session] files such a record under [missing_checksum], an
    outcome of its own: one more such line in a session file adds one
    to [missing_checksum] and leaves [verified] and [tampered] as they
    were. *)
Theorem C6_missing_checksum_is_unverifiable :
  forall (sha256 : string -> string) (percent_1f : Z -> Z -> string)
         (entry : pydict),
    dict_contains entry "checksum" = false ->
    verify_integrity sha256 entry = false
    /\ Session.classify sha256 (PDict entry) = Return Session.MissingChecksum
    /\ forall (path : string) (lines : list (option pyval))
              (rep : Session.report),
         Session.verify_session sha256 percent_1f path lines = Return rep ->
         exists rep',
           Session.verify_session sha256 percent_1f path
             (Some (PDict entry) :: lines) = Return rep'
           /\ Session.missing_checksum rep' = Session.missing_checksum rep + 1
           /\ Session.verified rep' = Session.verified rep
           /\ Session.tampered rep' = Session.tampered rep
           /\ Session.total_entries rep' = Session.total_entries rep + 1.
Proof.
  intros sha256 percent_1f entry Hno.
  split; [| split].
  - unfold verify_integrity. now rewrite Hno.
  - simpl. now rewrite Hno.
  - intros path lines rep. unfold Session.verify_session.
    rewrite (scan_missing sha256 entry lines _ Hno), scan_tally.
    destruct (Session.scan sha256 lines _) as [c|e]; [|discriminate].
    intros [= <-]. eexists. split; [reflexivity|]. simpl.
    repeat split; lia.
Qed.

Lemma C6_witness :
  let entry :=
    [("timestamp", PStr "2025-10-27T09:00:03.000000");
     ("type", PStr "learning"); ("content", PStr "no seal on this one")] in
  dict_contains entry "checksum" = false
  /\ verify_integrity Hashlib.sha256 entry = false.
Proof.
  intros entry.
  assert (H : dict_contains entry "checksum" = false) by reflexivity.
  split; [exact H |].
  exact (proj1 (C6_missing_checksum_is_unverifiable Hashlib.sha256
                  (fun _ _ => "") entry H)).
Defined.

(** C7. On a session file with no lines [verify_session] returns a
    report (it raises nothing) whose counts are all zero and whose
    [integrity_rate] is the string [N/A]; the division is not
    evaluated. *)
Theorem C7_empty_session_not_applicable :
  forall (sha256 : string -> string) (percent_1f : Z -> Z -> string)
         (path : string),
    Session.verify_session sha256 percent_1f path []
    = Return {| Session.session_file := path;
                Session.total_entries := 0;
                Session.verified := 0;
                Session.tampered := 0;
                Session.missing_checksum := 0;
                Session.integrity_rate := "N/A" |}.
Proof. reflexivity. Qed.

(** ** The resume reconciler *)

Section resume_facts.

Lemma insert_sorted_comm x y l :
  Resume.insert_sorted x (Resume.insert_sorted y l)
  = Resume.insert_sorted y (Resume.insert_sorted x l).
Proof.
  induction l as [|h t IH]; simpl.
  - destruct (Z.leb_spec x y), (Z.leb_spec y x); try reflexivity;
      try lia. now replace y with x by lia.
  - destruct (Z.leb_spec x h), (Z.leb_spec y h); simpl.
    + destruct (Z.leb_spec x y), (Z.leb_spec y x); try lia;
        destruct (Z.leb_spec x h), (Z.leb_spec y h); try lia;
        try reflexivity.
      now replace y with x by lia.
    + destruct (Z.leb_spec y x); [lia|].
      destruct (Z.leb_spec x h); [|lia].
      destruct (Z.leb_spec y h); [lia|]. reflexivity.
    + destruct (Z.leb_spec x y); [lia|].
      destruct (Z.leb_spec x h); [lia|].
      destruct (Z.leb_spec y h); [|lia]. reflexivity.
    + destruct (Z.leb_spec x h); [lia|].
      destruct (Z.leb_spec y h); [lia|]. now rewrite IH.
Qed.

(** [sorted] does not depend on the order of its input. *)
Lemma sorted_permutation l l' :
  Permutation l l' -> Resume.sorted l = Resume.sorted l'.
Proof.
  induction 1; simpl.
  - reflexivity.
  - now rewrite IHPermutation.
  - apply insert_sorted_comm.
  - congruence.
Qed.

Lemma insert_sorted_perm x l :
  Permutation (x :: l) (Resume.insert_sorted x l).
Proof.
  induction l as [|h t IH]; simpl; [reflexivity|].
  destruct (x <=? h); [reflexivity|].
  rewrite perm_swap. now apply perm_skip.
Qed.

Lemma sorted_perm l : Permutation l (Resume.sorted l).
Proof.
  induction l as [|h t IH]; simpl; [reflexivity|].
  rewrite <- insert_sorted_perm. now apply perm_skip.
Qed.

(** [max_of] is an upper bound drawn from the list. *)
Lemma max_of_spec l : forall x,
  In (Resume.max_of x l) (x :: l)
  /\ forall y, In y (x :: l) -> y <= Resume.max_of x l.
Proof.
  unfold Resume.max_of.
  induction l as [|h t IH]; intros x; simpl.
  - split; [now left | intros y [<- | []]; lia].
  - destruct (IH (Z.max x h)) as [Hin Hle]. split.
    + destruct Hin as [Hin | Hin]; [| now right; right].
      rewrite <- Hin.
      destruct (Z.max_spec x h) as [[_ ->] | [_ ->]]; auto.
    + intros y [<- | [<- | Hy]].
      * specialize (Hle (Z.max x h) (or_introl eq_refl)). lia.
      * specialize (Hle (Z.max x h) (or_introl eq_refl)). lia.
      * apply Hle. now right.
Qed.

Lemma next_step_of_123 steps :
  (forall n, In n steps <-> In n [1; 2; 3]) ->
  Resume.next_step_of steps = 4.
Proof.
  intros H. destruct steps as [|x l].
  - exfalso. apply (H 1). simpl; auto.
  - simpl. destruct (max_of_spec l x) as [Hin Hle].
    apply H in Hin. specialize (Hle 3 (proj2 (H 3) ltac:(simpl; auto))).
    simpl in Hin. lia.
Qed.

End resume_facts.

(** ** The reconciler and its standard output *)

(** On a standard output that takes every line, [resume_on_startup_to]
    is [resume_on_startup]. *)
Lemma resume_on_startup_to_any_line fs paths :
  Resume.resume_on_startup_to (fun _ => true) fs paths
  = Resume.resume_on_startup fs paths.
Proof.
  unfold Resume.resume_on_startup_to, Resume.print_and_return.
  reflexivity.
Qed.

(** C8, as stated, fails.  The existence test of the plan file sits in
    no [try], and neither does the [print] of the warning.  First
    record: [state.json] names a plan of 300 characters, of which there
    is no file; on Linux and Python 3.11 [Path.exists] raises [OSError]
    (file name too long) and [resume_on_startup] lets it through instead
    of returning the state.  Second record: the plan [deploy.md] has no
    file and the standard output cannot write the warning line;
    [UnicodeEncodeError] escapes. *)
Lemma C8_counterexample :
  let long_name := String.concat "" (repeat "0123456789" 30) in
  let state_doc := PDict [("current_plan", PStr long_name)] in
  let fs := sample_disk [Resume.state sample_paths] state_doc [] in
  let fs' := sample_disk [Resume.state sample_paths] (PDict sample_state) [] in
  (String.length long_name = 300%nat
   /\ Resume.read_json fs (Resume.state sample_paths) = Some state_doc
   /\ existsb
        (String.eqb
           (Resume.joinpath fs (Resume.plans sample_paths) long_name))
        [Resume.state sample_paths] = false
   /\ Resume.resume_on_startup_to (fun _ => true) fs (Some sample_paths)
      = (Raise OSError, []))
  /\ (Resume.path_exists fs'
        (Resume.joinpath fs' (Resume.plans sample_paths) "deploy.md")
      = Return false
      /\ Resume.resume_on_startup_to (fun _ => false) fs' (Some sample_paths)
         = (Raise UnicodeEncodeError, [])).
Proof. vm_compute. repeat split; reflexivity. Qed.

(** C8, amended. When the state document names a current plan, the
    existence test of its file returns [False] and the standard output
    takes the warning line, [resume_on_startup] returns the state
    document itself, as it was read: nothing is raised, no resume
    payload and no plan path is made up, and the only line printed is
    the missing-plan warning. *)
Theorem C8_missing_plan_returns_raw_state :
  forall (out : Resume.stdout) (fs : Resume.disk) (p : Resume.echo_paths)
         (d : pydict) (name : string),
    Resume.path_exists fs (Resume.state p) = Return true ->
    Resume.read_json fs (Resume.state p) = Some (PDict d) ->
    dict_getitem d "current_plan" = Some (PStr name) ->
    name <> "" ->
    Resume.path_exists fs (Resume.joinpath fs (Resume.plans p) name)
    = Return false ->
    out (Resume.plan_file_missing name) = true ->
    Resume.resume_on_startup_to out fs (Some p)
    = (Return (Some (PDict d)), [Resume.plan_file_missing name]).
Proof.
  intros out fs p d name Hstate Hread Hplan Hname Hmissing Hout.
  unfold Resume.resume_on_startup_to, Resume.print_and_return, dict_get.
  rewrite Hstate, Hread, Hplan. simpl.
  destruct (String.eqb_spec name ""); [contradiction |]. simpl.
  now rewrite Hmissing, Hout.
Qed.

Lemma C8_witness :
  Resume.resume_on_startup_to (fun _ => true)
    (sample_disk [Resume.state sample_paths] (PDict sample_state)
       ["step-1.ok"; "step-2.ok"])
    (Some sample_paths)
  = (Return (Some (PDict sample_state)),
     [Resume.plan_file_missing "deploy.md"]).
Proof.
  apply (C8_missing_plan_returns_raw_state (fun _ => true)
           (sample_disk [Resume.state sample_paths] (PDict sample_state)
              ["step-1.ok"; "step-2.ok"])
           sample_paths sample_state "deploy.md").
  - reflexivity.
  - reflexivity.
  - reflexivity.
  - discriminate.
  - reflexivity.
  - reflexivity.
Defined.

(** C2, as stated, fails: [step-1.ok] and [step-01.ok] are two markers of
    one directory that both encode step 1.  With [step-3.ok] and
    [step-2.ok] beside them the markers parse to the step numbers 1, 2
    and 3, the next step is 4, and the completed steps come back as
    [1, 1, 2, 3], not [1, 2, 3]. *)
Lemma C2_counterexample :
  let fs :=
    sample_disk
      [Resume.state sample_paths;
       Resume.joinpath (sample_disk [] PNone []) (Resume.plans sample_paths)
         "deploy.md"]
      (PDict sample_state)
      ["step-1.ok"; "step-3.ok"; "step-01.ok"; "step-2.ok"] in
  let steps :=
    Resume.collect_steps
      (Resume.glob_step_ok fs (Resume.checkpoints sample_paths)) in
  (forall n, In n steps <-> In n [1; 2; 3])
  /\ exists payload,
       fst (Resume.resume_on_startup fs (Some sample_paths))
       = Return (Some (PDict payload))
       /\ dict_getitem payload "next_step" = Some (PInt 4)
       /\ dict_getitem payload "completed_steps"
          = Some (PList [PInt 1; PInt 1; PInt 2; PInt 3])
       /\ dict_getitem payload "completed_steps"
          <> Some (PList [PInt 1; PInt 2; PInt 3]).
Proof.
  intros fs steps. split.
  - intros n. vm_compute. tauto.
  - eexists. split; [vm_compute; reflexivity |].
    repeat split; try reflexivity. vm_compute. discriminate.
Qed.

(** C2, amended. When the state document names a plan whose file exists
    and the markers of the checkpoint directory parse to the step
    numbers 1, 2 and 3 (in any order, some of them possibly more than
    once), [resume_on_startup] returns a payload whose [next_step] is 4
    and whose [completed_steps] is the sorted list of the parsed
    numbers, one per marker; that list is [1, 2, 3] exactly when no two
    markers encode the same number. *)
Theorem C2_resume_steps_123 :
  forall (fs : Resume.disk) (p : Resume.echo_paths) (d : pydict)
         (name : string) (steps : list Z),
    Resume.path_exists fs (Resume.state p) = Return true ->
    Resume.read_json fs (Resume.state p) = Some (PDict d) ->
    dict_getitem d "current_plan" = Some (PStr name) ->
    name <> "" ->
    Resume.path_exists fs (Resume.joinpath fs (Resume.plans p) name)
    = Return true ->
    steps = Resume.collect_steps (Resume.glob_step_ok fs (Resume.checkpoints p)) ->
    (forall n, In n steps <-> In n [1; 2; 3]) ->
    exists payload,
      fst (Resume.resume_on_startup fs (Some p)) = Return (Some (PDict payload))
      /\ dict_getitem payload "next_step" = Some (PInt 4)
      /\ dict_getitem payload "completed_steps"
         = Some (PList (map PInt (Resume.sorted steps)))
      /\ (Resume.sorted steps = [1; 2; 3] <-> NoDup steps).
Proof.
  intros fs p d name steps Hstate Hread Hplan Hname Hfile Hsteps H123.
  unfold Resume.resume_on_startup, dict_get.
  rewrite Hstate, Hread, Hplan. simpl.
  destruct (String.eqb_spec name ""); [contradiction|]. simpl.
  rewrite Hfile. simpl. rewrite <- Hsteps.
  eexists. split; [reflexivity|]. simpl.
  rewrite (next_step_of_123 steps H123).
  repeat split; try reflexivity.
  - intros Hs.
    apply (Permutation_NoDup (l := [1; 2; 3])).
    + rewrite <- Hs. symmetry. apply sorted_perm.
    + repeat constructor; simpl; intuition discriminate.
  - intros Hnd.
    assert (HP : Permutation steps [1; 2; 3]).
    { apply NoDup_Permutation; [exact Hnd | | exact H123].
      repeat constructor; simpl; intuition discriminate. }
    now rewrite (sorted_permutation _ _ HP).
Qed.

Lemma C2_witness :
  let fs :=
    sample_disk
      [Resume.state sample_paths; ".echo_memory/echo_state/plan/deploy.md"]
      (PDict sample_state)
      ["step-1.ok"; "notes.txt"; "step-3.ok"; "step-2.ok"; "step-x.ok"] in
  exists payload,
    fst (Resume.resume_on_startup fs (Some sample_paths))
    = Return (Some (PDict payload))
    /\ dict_getitem payload "next_step" = Some (PInt 4)
    /\ dict_getitem payload "completed_steps"
       = Some (PList (map PInt (Resume.sorted [1; 3; 2])))
    /\ (Resume.sorted [1; 3; 2] = [1; 2; 3] <-> NoDup [1; 3; 2]).
Proof.
  intros fs.
  apply (C2_resume_steps_123 fs sample_paths sample_state "deploy.md"
           [1; 3; 2]).
  - reflexivity.
  - reflexivity.
  - reflexivity.
  - discriminate.
  - reflexivity.
  - reflexivity.
  - intros n. simpl. tauto.
Defined.

(** ** The order on keys *)

Section key_order.

Lemma string_leb_trans : forall a b c : string,
  String.leb a b = true -> String.leb b c = true -> String.leb a c = true.
Proof.
  unfold String.leb.
  induction a as [|x a IH]; intros [|y b] [|z c]; simpl; try easy.
  unfold Ascii.compare.
  destruct (N.compare_spec (N_of_ascii x) (N_of_ascii y)) as [Hxy|Hxy|Hxy];
    destruct (N.compare_spec (N_of_ascii y) (N_of_ascii z)) as [Hyz|Hyz|Hyz];
    destruct (N.compare_spec (N_of_ascii x) (N_of_ascii z)) as [Hxz|Hxz|Hxz];
    try easy; try lia.
  apply IH.
Qed.

Lemma string_leb_false a b :
  String.leb a b = false -> String.leb b a = true.
Proof.
  intros H. destruct (String.leb_total a b) as [H'|H']; congruence.
Qed.

Context {A : Type}.
Implicit Types (a b : string * A) (l : list (string * A)).

(** Two items with different keys can be inserted in either order. *)
Lemma insert_item_comm a b l :
  fst a <> fst b ->
  insert_item a (insert_item b l) = insert_item b (insert_item a l).
Proof.
  intros Hne.
  assert (Hab : String.leb (fst a) (fst b) = true ->
                String.leb (fst b) (fst a) = true -> False).
  { intros H1 H2. apply Hne. now apply String.leb_antisym. }
  induction l as [|h t IH]; simpl.
  - destruct (String.leb (fst a) (fst b)) eqn:E1,
             (String.leb (fst b) (fst a)) eqn:E2; try reflexivity.
    + exfalso; auto.
    + apply string_leb_false in E1. congruence.
  - destruct (String.leb (fst a) (fst h)) eqn:Ea,
             (String.leb (fst b) (fst h)) eqn:Eb; simpl.
    + destruct (String.leb (fst a) (fst b)) eqn:E1,
               (String.leb (fst b) (fst a)) eqn:E2;
        rewrite ?Ea, ?Eb; try reflexivity.
      * exfalso; auto.
      * apply string_leb_false in E1. congruence.
    + rewrite Ea.
      destruct (String.leb (fst b) (fst a)) eqn:E2.
      * rewrite (string_leb_trans _ _ _ E2 Ea) in Eb. discriminate.
      * now rewrite Eb.
    + rewrite Eb.
      destruct (String.leb (fst a) (fst b)) eqn:E1.
      * rewrite (string_leb_trans _ _ _ E1 Eb) in Ea. discriminate.
      * now rewrite Ea.
    + rewrite Ea, Eb. now rewrite IH.
Qed.

(** With distinct keys the sorted list does not depend on the order
    the items came in. *)
Lemma sort_items_permutation l l' :
  Permutation l l' -> NoDup (map fst l) -> sort_items l = sort_items l'.
Proof.
  induction 1 as [|x l l' HP IH|x y l|l l' l'' HP1 IH1 HP2 IH2];
    intros Hnd; simpl.
  - reflexivity.
  - inversion Hnd; subst. now rewrite IH.
  - apply insert_item_comm. inversion Hnd as [|? ? Hnin _]; subst.
    intros Heq. apply Hnin. simpl. now left.
  - rewrite IH1 by exact Hnd. apply IH2.
    eapply Permutation_NoDup; [| exact Hnd]. now apply Permutation_map.
Qed.

Lemma insert_item_perm a l : Permutation (a :: l) (insert_item a l).
Proof.
  induction l as [|h t IH]; simpl; [reflexivity|].
  destruct (String.leb (fst a) (fst h)); [reflexivity|].
  rewrite perm_swap. now apply perm_skip.
Qed.

Lemma sort_items_perm l : Permutation l (sort_items l).
Proof.
  induction l as [|h t IH]; simpl; [reflexivity|].
  rewrite <- insert_item_perm. now apply perm_skip.
Qed.

End key_order.

Section sort_map.
Context {A B : Type} (f : A -> B).

Let on_snd (kv : string * A) : string * B := (fst kv, f (snd kv)).

Lemma insert_item_map kv l :
  insert_item (on_snd kv) (map on_snd l) = map on_snd (insert_item kv l).
Proof.
  induction l as [|h t IH]; simpl; [reflexivity|].
  destruct (String.leb (fst kv) (fst h)); simpl; [reflexivity|].
  now rewrite IH.
Qed.

(** Sorting looks at keys only: it commutes with a map on the values. *)
Lemma sort_items_map l :
  sort_items (map on_snd l) = map on_snd (sort_items l).
Proof.
  induction l as [|h t IH]; simpl; [reflexivity|].
  rewrite IH. apply insert_item_map.
Qed.
End sort_map.

(** ** Insertion order and the canonical text *)

Section canonical_text.

Lemma keys_rendered (d : pydict) :
  map fst (map (fun kv => (fst kv, dumps (snd kv))) d) = keys d.
Proof. unfold keys. rewrite map_map. reflexivity. Qed.

(** Values that Python compares equal up to the order of insertion
    have the same canonical text. *)
Lemma dumps_same_items : forall v1 v2,
  same_items v1 v2 -> dumps v1 = dumps v2.
Proof.
  induction v1 as [| b | z | s | l IH | l IH | d IH]
    using pyval_nested_ind; intros v2 H; inversion H; subst;
    try reflexivity.
  - simpl. enough (E : map dumps l = map dumps l2) by now rewrite E.
    match goal with HF : Forall2 _ _ _ |- _ => clear H; induction HF end;
      simpl; [reflexivity|].
    inversion IH; subst. f_equal; auto.
  - simpl. enough (E : map dumps l = map dumps l2) by now rewrite E.
    match goal with HF : Forall2 _ _ _ |- _ => clear H; induction HF end;
      simpl; [reflexivity|].
    inversion IH; subst. f_equal; auto.
  - match goal with
    | Hnd : NoDup _, HP : Permutation _ _, HF : Forall2 _ _ _ |- _ =>
        rename Hnd into Hnodup; rename HP into Hperm; rename HF into Hall
    end.
    simpl.
    enough (E : sort_items (map (fun kv => (fst kv, dumps (snd kv))) d)
                = sort_items (map (fun kv => (fst kv, dumps (snd kv))) d2))
      by now rewrite E.
    rewrite (sort_items_permutation _
               (map (fun kv => (fst kv, dumps (snd kv))) d0)).
    + f_equal.
      assert (IH' : Forall (fun kv => forall v2,
                        same_items (snd kv) v2 -> dumps (snd kv) = dumps v2)
                      d0).
      { rewrite Forall_forall in *. intros kv Hin. apply IH.
        eapply Permutation_in; [symmetry; exact Hperm | exact Hin]. }
      clear - Hall IH'.
      induction Hall as [|a b la lb [Hk Hv] _ IHall]; simpl;
        [reflexivity|].
      inversion IH'; subst. f_equal; [| auto].
      rewrite Hk. f_equal. auto.
    + now apply Permutation_map.
    + now rewrite keys_rendered.
Qed.

(** Dropping one key from both sides keeps the items the same. *)
Lemma same_items_filter_key (f : string -> bool) d1 d2 :
  same_items (PDict d1) (PDict d2) ->
  same_items (PDict (filter (fun kv => f (fst kv)) d1))
             (PDict (filter (fun kv => f (fst kv)) d2)).
Proof.
  intros H. inversion H as [| | | | | | ? ? d Hnd HP HF]; subst.
  apply si_dict with (d := filter (fun kv => f (fst kv)) d).
  - unfold keys in *. clear - Hnd.
    induction d1 as [|[k v] d1 IH]; simpl; [constructor|].
    inversion Hnd as [|? ? Hnin Hnd']; subst.
    destruct (f k); simpl; [| auto].
    constructor; [| auto].
    intros Hin. apply Hnin. apply in_map_iff in Hin as [kv [Hk Hin]].
    apply filter_In in Hin as [Hin _]. apply in_map_iff. eauto.
  - clear - HP. induction HP; simpl.
    + constructor.
    + destruct (f (fst x)); auto.
    + destruct (f (fst x)), (f (fst y)); auto using perm_swap.
    + etransitivity; eauto.
  - clear - HF. induction HF as [|a b la lb [Hk Hv] _ IH]; simpl;
      [constructor|].
    rewrite Hk. destruct (f (fst b)); auto.
Qed.

End canonical_text.

(** C5. Two event records that hold the same key-value pairs, at the
    top level and in every nested mapping, get the same digest from
    [_hash_entry], whatever the order their mappings were filled in. *)
Theorem C5_digest_ignores_insertion_order :
  forall (sha256 : string -> string) (r1 r2 : pydict),
    same_items (PDict r1) (PDict r2) ->
    _hash_entry sha256 r1 = _hash_entry sha256 r2.
Proof.
  intros sha256 r1 r2 H. unfold _hash_entry. f_equal.
  apply dumps_same_items. unfold entry_for_hash.
  apply (same_items_filter_key
           (fun k => negb (String.eqb k "checksum")) r1 r2 H).
Qed.

Lemma C5_witness :
  let r1 :=
    [("timestamp", PStr "2025-10-27T09:00:03.000000");
     ("type", PStr "learning");
     ("context", PDict [("pattern", PStr "Clean Code Structure");
                         ("evidence", PDict [("a", PInt 1); ("b", PNone)])])] in
  let r2 :=
    [("context", PDict [("evidence", PDict [("b", PNone); ("a", PInt 1)]);
                         ("pattern", PStr "Clean Code Structure")]);
     ("type", PStr "learning");
     ("timestamp", PStr "2025-10-27T09:00:03.000000")] in
  _hash_entry Hashlib.sha256 r1 = _hash_entry Hashlib.sha256 r2.
Proof.
  intros r1 r2.
  apply (C5_digest_ignores_insertion_order Hashlib.sha256 r1 r2).
  apply si_dict with
    (d := [("context", PDict [("pattern", PStr "Clean Code Structure");
                               ("evidence",
                                 PDict [("a", PInt 1); ("b", PNone)])]);
           ("type", PStr "learning");
           ("timestamp", PStr "2025-10-27T09:00:03.000000")]).
  - repeat constructor; simpl; intuition discriminate.
  - apply Permutation_rev.
  - repeat constructor; simpl.
    apply si_dict with
      (d := [("evidence", PDict [("a", PInt 1); ("b", PNone)]);
             ("pattern", PStr "Clean Code Structure")]).
    + repeat constructor; simpl; intuition discriminate.
    + apply perm_swap.
    + repeat constructor; simpl.
      apply si_dict with (d := [("b", PNone); ("a", PInt 1)]).
      * repeat constructor; simpl; intuition discriminate.
      * apply perm_swap.
      * repeat constructor.
Defined.


(** ** The canonical text determines the value *)

Section text_facts.

Lemma string_app_assoc (a b c : string) : (a ++ b) ++ c = a ++ (b ++ c).
Proof. induction a as [|x a IH]; simpl; [reflexivity | now rewrite IH]. Qed.

Lemma string_app_nil_r (a : string) : a ++ "" = a.
Proof. induction a as [|x a IH]; simpl; [reflexivity | now rewrite IH]. Qed.

Lemma unescape_escape_char (c : ascii) (t : string) :
  unescape_char (escape_char c ++ t) = Some (c, t).
Proof. destruct c as [[] [] [] [] [] [] [] []]; reflexivity. Qed.

(** The escaped form of a string, up to its closing quote, gives the
    string back. *)
Lemma escape_prefix : forall s1 s2 t1 t2,
  escape s1 ++ String dquote t1 = escape s2 ++ String dquote t2 ->
  s1 = s2 /\ t1 = t2.
Proof.
  induction s1 as [|c1 s1 IH]; intros [|c2 s2] t1 t2 H; simpl in H.
  - injection H as ->. auto.
  - rewrite string_app_assoc in H. apply (f_equal unescape_char) in H.
    rewrite unescape_escape_char in H. discriminate.
  - rewrite string_app_assoc in H. apply (f_equal unescape_char) in H.
    rewrite unescape_escape_char in H. discriminate.
  - rewrite !string_app_assoc in H. apply (f_equal unescape_char) in H.
    rewrite !unescape_escape_char in H. injection H as -> H.
    apply IH in H as [-> ->]. auto.
Qed.

Lemma string_of_uint_prefix : forall u u' r r',
  value_end r = true -> value_end r' = true ->
  NilEmpty.string_of_uint u ++ r = NilEmpty.string_of_uint u' ++ r' ->
  u = u' /\ r = r'.
Proof.
  induction u as [|u IH|u IH|u IH|u IH|u IH|u IH|u IH|u IH|u IH|u IH];
    intros [|u'|u'|u'|u'|u'|u'|u'|u'|u'|u'] r r' Hr Hr' H; simpl in H;
    try (subst; discriminate); try discriminate;
    try (injection H as H; apply IH in H as [-> ->]; auto).
  auto.
Qed.

Lemma repr_int_prefix z z' r r' :
  value_end r = true -> value_end r' = true ->
  repr_int z ++ r = repr_int z' ++ r' -> z = z' /\ r = r'.
Proof.
  unfold repr_int. intros Hr Hr' H.
  enough (E : Z.to_int z = Z.to_int z' /\ r = r').
  { destruct E as [E ->]. split; [now apply DecimalZ.to_int_inj | reflexivity]. }
  destruct (Z.to_int z) as [u|u], (Z.to_int z') as [u'|u']; simpl in H.
  - apply string_of_uint_prefix in H as [-> ->]; auto.
  - exfalso. destruct u; simpl in H; try discriminate.
    subst r. discriminate.
  - exfalso. destruct u'; simpl in H; try discriminate.
    subst r'. discriminate.
  - injection H as H. apply string_of_uint_prefix in H as [-> ->]; auto.
Qed.

End text_facts.

Section head_facts.

Lemma dumps_head (v : pyval) (r : string) :
  kind_of_head (dumps v ++ r) = kind v.
Proof.
  destruct v as [| [|] | z | s | l | l | d]; try reflexivity.
  simpl. unfold repr_int. destruct z as [|p|p]; simpl; [reflexivity | |].
  - pose proof (DecimalPos.Unsigned.to_uint_nonnil p) as Hn.
    destruct (Pos.to_uint p); [contradiction | reflexivity ..].
  - reflexivity.
Qed.

Lemma join_cons (sep p : string) (l : list string) :
  join sep (p :: l) = p ++ join_tail sep l.
Proof. destruct l; simpl; [now rewrite string_app_nil_r | reflexivity]. Qed.

End head_facts.

(** Reading a bracketed, comma-separated sequence back, item by item.
    [f] and [g] render the items of the two sequences, [R] is what
    equal renderings say about two items, [Q] holds of the items of the
    second sequence. *)
Section join_prefix.
Context {A B : Type} (f : A -> string) (g : B -> string).
Context (R : A -> B -> Prop) (Q : B -> Prop) (close : ascii).
Hypothesis close_end : forall r, value_end (String close r) = true.
Hypothesis close_not_comma : close <> ","%char.
Hypothesis f_not_close : forall a r r', f a ++ r <> String close r'.
Hypothesis g_not_close : forall b r r', g b ++ r <> String close r'.

Lemma value_end_join_tail (l : list string) (r : string) :
  value_end (join_tail ", " l ++ String close r) = true.
Proof. destruct l; [exact (close_end r) | reflexivity]. Qed.

Lemma join_prefix : forall l1,
  Forall (fun a => forall b r1 r2,
            Q b -> value_end r1 = true -> value_end r2 = true ->
            f a ++ r1 = g b ++ r2 -> R a b /\ r1 = r2) l1 ->
  forall l2 r1 r2,
    Forall Q l2 ->
    join ", " (map f l1) ++ String close r1
    = join ", " (map g l2) ++ String close r2 ->
    Forall2 R l1 l2 /\ r1 = r2.
Proof.
  induction l1 as [|a l1 IH]; intros Hall [|b l2] r1 r2 HQ H.
  - simpl in H. injection H as ->. auto.
  - exfalso. simpl map in H. rewrite join_cons, string_app_assoc in H.
    symmetry in H. exact (g_not_close _ _ _ H).
  - exfalso. simpl map in H. rewrite join_cons, string_app_assoc in H.
    exact (f_not_close _ _ _ H).
  - simpl map in H. rewrite !join_cons, !string_app_assoc in H.
    inversion Hall as [|? ? Ha Hall']; subst.
    inversion HQ as [|? ? Hb HQ']; subst.
    apply Ha in H as [Hab H]; auto using value_end_join_tail.
    enough (E : Forall2 R l1 l2 /\ r1 = r2)
      by (destruct E; split; [constructor |]; assumption).
    destruct l1 as [|a' l1], l2 as [|b' l2]; simpl join_tail in H.
    + simpl in H. injection H as ->. auto.
    + exfalso. simpl in H. injection H as Hc _. now apply close_not_comma.
    + exfalso. simpl in H. injection H as Hc _.
      now apply close_not_comma.
    + change ((", " ++ join ", " (map f (a' :: l1))) ++ String close r1)
        with (String "," (String " "
                (join ", " (map f (a' :: l1)) ++ String close r1))) in H.
      change ((", " ++ join ", " (map g (b' :: l2))) ++ String close r2)
        with (String "," (String " "
                (join ", " (map g (b' :: l2)) ++ String close r2))) in H.
      injection H as H. exact (IH Hall' (b' :: l2) r1 r2 HQ' H).
Qed.

End join_prefix.

Section dumps_prefix.

Let render (kv : string * pyval) : string := member (fst kv, dumps (snd kv)).

Lemma dumps_not_bracket v r r' : dumps v ++ r <> String "]" r'.
Proof.
  intros H. apply (f_equal kind_of_head) in H. rewrite dumps_head in H.
  destruct v as [| | | | | |]; discriminate.
Qed.

Lemma render_not_brace kv r r' : render kv ++ r <> String "}" r'.
Proof. unfold render, member, encode_basestring_ascii. discriminate. Qed.

Lemma dumps_dict_text (d : pydict) :
  dumps (PDict d) = "{" ++ join ", " (map render (sort_items d)) ++ "}".
Proof.
  simpl. rewrite (sort_items_map dumps d), map_map. reflexivity.
Qed.

(** A value followed by the rest of a text can be read back in one way
    only. *)
Lemma dumps_prefix : forall v1,
  json_doc v1 ->
  forall v2 r1 r2,
    json_doc v2 -> value_end r1 = true -> value_end r2 = true ->
    dumps v1 ++ r1 = dumps v2 ++ r2 ->
    same_items v1 v2 /\ r1 = r2.
Proof.
  induction v1 as [| b | z | s | l IH | l IH | d IH]
    using pyval_nested_ind; intros J1 v2 r1 r2 J2 E1 E2 H;
    (assert (Hk : kind_of_head (dumps v2 ++ r2) = kind v2)
       by apply dumps_head);
    rewrite <- H, dumps_head in Hk;
    destruct v2 as [| b2 | z2 | s2 | l2 | l2 | d2]; try discriminate Hk;
    try (inversion J1; fail); try (inversion J2; fail).
  - simpl in H. injection H as ->. split; constructor.
  - destruct b, b2; simpl in H; try discriminate;
      injection H as ->; split; constructor.
  - simpl in H. apply repr_int_prefix in H as [-> ->]; auto.
    split; constructor.
  - simpl in H. unfold encode_basestring_ascii in H. simpl in H.
    injection H as H. rewrite !string_app_assoc in H. simpl in H.
    apply escape_prefix in H as [-> ->]. split; constructor.
  - simpl in H. injection H as H. rewrite !string_app_assoc in H.
    simpl in H. inversion J1 as [| | | | ? J1' |]; subst.
    inversion J2 as [| | | | ? J2' |]; subst.
    apply (join_prefix dumps dumps same_items json_doc "]") in H.
    + destruct H as [HF ->]. split; [now constructor | reflexivity].
    + reflexivity.
    + discriminate.
    + apply dumps_not_bracket.
    + apply dumps_not_bracket.
    + rewrite Forall_forall in *. intros a Ha b r r' Jb Hr Hr' Hab.
      apply (IH a Ha (J1' a Ha) b r r' Jb Hr Hr' Hab).
    + exact J2'.
  - rewrite !dumps_dict_text in H. simpl in H. injection H as H.
    rewrite !string_app_assoc in H. simpl in H.
    inversion J1 as [| | | | | ? Hnd1 J1']; subst.
    inversion J2 as [| | | | | ? Hnd2 J2']; subst.
    apply (join_prefix render render
             (fun a b => fst a = fst b /\ same_items (snd a) (snd b))
             (fun b => json_doc (snd b)) "}") in H.
    + destruct H as [HF ->]. split; [| reflexivity].
      apply Forall2_flip in HF.
      destruct (Permutation_Forall2 (Permutation_sym (sort_items_perm d2)) HF)
        as [d' [HP HF']].
      apply Forall2_flip in HF'.
      apply si_dict with (d := d'); [exact Hnd1 | | exact HF'].
      etransitivity; [apply sort_items_perm | exact HP].
    + reflexivity.
    + discriminate.
    + apply render_not_brace.
    + apply render_not_brace.
    + assert (IHs : Forall (fun kv =>
                      json_doc (snd kv) /\
                      (json_doc (snd kv) ->
                       forall v2 r1 r2, json_doc v2 ->
                         value_end r1 = true -> value_end r2 = true ->
                         dumps (snd kv) ++ r1 = dumps v2 ++ r2 ->
                         same_items (snd kv) v2 /\ r1 = r2))
                      (sort_items d)).
      { rewrite Forall_forall in *. intros kv Hin.
        assert (Hin' : In kv d)
          by (eapply Permutation_in;
              [symmetry; apply sort_items_perm | exact Hin]).
        split; auto. }
      clear - IHs. rewrite Forall_forall in *.
      intros a Ha b r r' Jb Hr Hr' Hab.
      destruct (IHs a Ha) as [Ja IHa].
      unfold render, member, encode_basestring_ascii in Hab. simpl in Hab.
      injection Hab as Hab. rewrite !string_app_assoc in Hab.
      simpl in Hab. apply escape_prefix in Hab as [Hk Hab].
      injection Hab as Hab.
      apply IHa in Hab as [Hv ->]; auto.
    + rewrite Forall_forall in *. intros b Hb. apply J2'.
      eapply Permutation_in; [symmetry; apply sort_items_perm | exact Hb].
Qed.

(** On JSON documents the canonical text is one-to-one, up to the order
    in which mappings were filled. *)
Lemma dumps_inj v1 v2 :
  json_doc v1 -> json_doc v2 -> dumps v1 = dumps v2 -> same_items v1 v2.
Proof.
  intros J1 J2 H.
  apply (dumps_prefix v1 J1 v2 "" "" J2 eq_refl eq_refl).
  now rewrite !string_app_nil_r.
Qed.

End dumps_prefix.

(** ** Looking fields up *)

Section lookup_facts.

Lemma dict_getitem_In d k v : dict_getitem d k = Some v -> In (k, v) d.
Proof.
  induction d as [|[k' v'] d IH]; simpl; [discriminate|].
  destruct (String.eqb_spec k' k) as [-> | _].
  - intros [= ->]. now left.
  - intros H. right. auto.
Qed.

Lemma In_dict_getitem d k v :
  NoDup (keys d) -> In (k, v) d -> dict_getitem d k = Some v.
Proof.
  induction d as [|[k' v'] d IH]; simpl; [easy|].
  intros Hnd [Heq | Hin]; inversion Hnd as [|? ? Hnin Hnd']; subst.
  - injection Heq as -> ->. now rewrite String.eqb_refl.
  - destruct (String.eqb_spec k' k) as [-> | _]; [| auto].
    exfalso. apply Hnin. unfold keys. apply in_map_iff.
    now exists (k, v).
Qed.

Lemma dict_getitem_setitem_other d k k' v :
  k <> k' -> dict_getitem (dict_setitem d k v) k' = dict_getitem d k'.
Proof.
  intros Hne. induction d as [|[k0 v0] d IH]; simpl.
  - destruct (String.eqb_spec k k'); [contradiction | reflexivity].
  - destruct (String.eqb_spec k0 k) as [-> | _]; simpl.
    + destruct (String.eqb_spec k k'); [contradiction | reflexivity].
    + now rewrite IH.
Qed.

Lemma dict_contains_setitem_other d k k' v :
  k <> k' -> dict_contains (dict_setitem d k v) k' = dict_contains d k'.
Proof.
  intros Hne. induction d as [|[k0 v0] d IH]; simpl.
  - destruct (String.eqb_spec k k'); [contradiction | reflexivity].
  - destruct (String.eqb_spec k0 k) as [-> | _]; simpl.
    + destruct (String.eqb_spec k k'); [contradiction | reflexivity].
    + now rewrite IH.
Qed.

Lemma keys_setitem d k v x :
  In x (keys (dict_setitem d k v)) -> x = k \/ In x (keys d).
Proof.
  induction d as [|[k0 v0] d IH]; simpl.
  - intros [<- | []]. now left.
  - destruct (String.eqb_spec k0 k) as [-> | _]; simpl.
    + intros [<- | H]; auto.
    + intros [<- | H]; auto. apply IH in H as [-> | H]; auto.
Qed.

Lemma NoDup_keys_setitem d k v :
  NoDup (keys d) -> NoDup (keys (dict_setitem d k v)).
Proof.
  induction d as [|[k0 v0] d IH]; simpl; intros Hnd.
  - repeat constructor. easy.
  - inversion Hnd as [|? ? Hnin Hnd']; subst.
    destruct (String.eqb_spec k0 k) as [-> | Hne]; simpl.
    + now constructor.
    + constructor; [| auto].
      intros H. apply keys_setitem in H as [-> | H]; auto.
Qed.

Lemma NoDup_keys_filter (f : string * pyval -> bool) d :
  NoDup (keys d) -> NoDup (keys (filter f d)).
Proof.
  unfold keys. induction d as [|kv d IH]; simpl; intros Hnd; [constructor|].
  inversion Hnd as [|? ? Hnin Hnd']; subst.
  destruct (f kv); simpl; [| auto].
  constructor; [| auto].
  intros Hin. apply Hnin. apply in_map_iff in Hin as [kv' [Hk Hin]].
  apply filter_In in Hin as [Hin _]. apply in_map_iff. eauto.
Qed.

Lemma json_doc_setitem d k v :
  json_doc (PDict d) -> json_doc v -> json_doc (PDict (dict_setitem d k v)).
Proof.
  intros J Jv. inversion J as [| | | | | ? Hnd Hall]; subst.
  constructor; [now apply NoDup_keys_setitem |].
  clear - Hall Jv. induction d as [|[k0 v0] d IH]; simpl.
  - now repeat constructor.
  - inversion Hall; subst.
    destruct (String.eqb k0 k); constructor; auto.
Qed.

Lemma json_doc_entry_for_hash d :
  json_doc (PDict d) -> json_doc (PDict (entry_for_hash d)).
Proof.
  intros J. inversion J as [| | | | | ? Hnd Hall]; subst.
  unfold entry_for_hash. constructor; [now apply NoDup_keys_filter |].
  rewrite Forall_forall in *. intros kv Hin.
  apply filter_In in Hin as [Hin _]. auto.
Qed.

Lemma json_doc_getitem d k v :
  json_doc (PDict d) -> dict_getitem d k = Some v -> json_doc v.
Proof.
  intros J H. inversion J as [| | | | | ? _ Hall]; subst.
  apply dict_getitem_In in H. rewrite Forall_forall in Hall.
  apply (Hall _ H).
Qed.

Lemma entry_for_hash_getitem d k :
  k <> "checksum" ->
  dict_getitem (entry_for_hash d) k = dict_getitem d k.
Proof.
  intros Hne. unfold entry_for_hash.
  induction d as [|[k0 v0] d IH]; [reflexivity|].
  cbn [filter fst].
  destruct (String.eqb_spec k0 "checksum") as [-> | _];
    cbn [negb dict_getitem].
  - destruct (String.eqb_spec "checksum" k); [congruence | exact IH].
  - now rewrite IH.
Qed.

Lemma Forall2_keys {R : pyval -> pyval -> Prop} (d d' : pydict) :
  Forall2 (fun a b => fst a = fst b /\ R (snd a) (snd b)) d d' ->
  keys d = keys d'.
Proof.
  unfold keys. induction 1 as [|a b la lb [Hk _] _ IH]; simpl;
    [reflexivity | now rewrite Hk, IH].
Qed.

Lemma Forall2_In_l {R : pyval -> pyval -> Prop} (d d' : pydict) k v :
  Forall2 (fun a b => fst a = fst b /\ R (snd a) (snd b)) d d' ->
  In (k, v) d -> exists v', In (k, v') d' /\ R v v'.
Proof.
  induction 1 as [|a [kb vb] la lb [Hk Hv] _ IH]; simpl; [easy|].
  intros [-> | Hin].
  - simpl in *. subst kb. exists vb. auto.
  - destruct (IH Hin) as [v' [Hin' Hv']]. exists v'. auto.
Qed.

(** Mappings with the same items hold the same value under each key. *)
Lemma same_items_getitem d1 d2 k v1 v2 :
  same_items (PDict d1) (PDict d2) ->
  dict_getitem d1 k = Some v1 -> dict_getitem d2 k = Some v2 ->
  same_items v1 v2.
Proof.
  intros H H1 H2. inversion H as [| | | | | | ? ? d Hnd HP HF]; subst.
  apply dict_getitem_In in H1.
  apply (Permutation_in _ HP) in H1.
  destruct (Forall2_In_l _ _ _ _ HF H1) as [v' [Hin Hv]].
  assert (Hnd2 : NoDup (keys d2)).
  { rewrite <- (Forall2_keys _ _ HF).
    eapply Permutation_NoDup; [| exact Hnd].
    unfold keys. now apply Permutation_map. }
  apply (In_dict_getitem _ _ _ Hnd2) in Hin. congruence.
Qed.

End lookup_facts.

(** ** Tampering with a sealed record *)

Section tamper_facts.
Variable sha256 : string -> string.

(** A record is sealed when its checksum is the digest of its other
    fields.  Replacing a field of a sealed JSON record by a JSON value
    with other items is detected, unless the digest collides. *)
Lemma field_change_detected r k v v' :
  json_doc (PDict r) ->
  dict_getitem r "checksum" = Some (PStr (_hash_entry sha256 r)) ->
  k <> "checksum" ->
  dict_getitem r k = Some v ->
  json_doc v' ->
  ~ same_items v v' ->
  no_collision sha256
    (dumps (PDict (entry_for_hash r)))
    (dumps (PDict (entry_for_hash (dict_setitem r k v')))) ->
  verify_integrity sha256 (dict_setitem r k v') = false.
Proof.
  intros J Hseal Hk Hv Jv' Hchg Hcol.
  unfold verify_integrity.
  rewrite dict_contains_setitem_other, dict_getitem_setitem_other by exact Hk.
  rewrite Hseal.
  destruct (dict_contains r "checksum"); simpl; [| reflexivity].
  apply String.eqb_neq. intros Heq. apply Hchg.
  unfold _hash_entry in Heq. apply Hcol in Heq.
  apply dumps_inj in Heq.
  - apply (same_items_getitem _ _ k v v' Heq).
    + now rewrite entry_for_hash_getitem.
    + now rewrite entry_for_hash_getitem, dict_getitem_setitem.
  - now apply json_doc_entry_for_hash.
  - apply json_doc_entry_for_hash. now apply json_doc_setitem.
Qed.

(** The records [log_thought] returns are JSON documents when the
    context handed in is one. *)
Lemma log_thought_json_doc thought_type content context create_signal self :
  json_doc (PDict (Engine.or_empty_dict context)) ->
  json_doc (PDict (fst (Engine.log_thought sha256 thought_type content
                          context create_signal self))).
Proof.
  intros J. unfold Engine.log_thought, Engine.datetime_now.
  destruct (create_signal && Engine.EXTERNAL_INTEGRATION_AVAILABLE)%bool;
    cbn -[_hash_entry Engine.or_empty_dict append];
    (apply jd_dict;
     [ unfold keys; cbn [map fst];
       repeat (apply NoDup_cons; [simpl; intuition discriminate |]);
       apply NoDup_nil
     | repeat (apply Forall_cons; [first [exact J | constructor] |]);
       apply Forall_nil ]).
Qed.


End tamper_facts.


(** On the values of the model that are JSON documents, a change of
    value is a change of text.  Take a record returned by [log_thought]
    for a context that is a JSON document, and replace the value of a
    field other than [checksum], or of a sub-field of [context], by a
    JSON value that does not hold the same items.  Then
    [verify_integrity] returns [False] on the changed record, provided
    the digest function does not collide on the canonical texts of the
    two records.  (The strings of the model stop at U+00FF; see
    [surrogate_pair_demo] for what happens beyond.) *)
Lemma json_field_change_detected :
  forall (sha256 : string -> string) (thought_type content : string)
         (context : option pydict) (create_signal : bool)
         (self : Engine.engine),
    json_doc (PDict (Engine.or_empty_dict context)) ->
    let r := fst (Engine.log_thought sha256 thought_type content context
                    create_signal self) in
    (forall (k : string) (v v' : pyval),
       k <> "checksum" ->
       dict_getitem r k = Some v ->
       json_doc v' ->
       ~ same_items v v' ->
       no_collision sha256
         (dumps (PDict (entry_for_hash r)))
         (dumps (PDict (entry_for_hash (dict_setitem r k v')))) ->
       verify_integrity sha256 (dict_setitem r k v') = false)
    /\ (forall (ctx : pydict) (k : string) (v v' : pyval),
          dict_getitem r "context" = Some (PDict ctx) ->
          dict_getitem ctx k = Some v ->
          json_doc v' ->
          ~ same_items v v' ->
          let r' :=
            dict_setitem r "context" (PDict (dict_setitem ctx k v')) in
          no_collision sha256
            (dumps (PDict (entry_for_hash r)))
            (dumps (PDict (entry_for_hash r'))) ->
          verify_integrity sha256 r' = false).
Proof.
  intros sha256 thought_type content context create_signal self J r.
  assert (Jr : json_doc (PDict r))
    by (apply log_thought_json_doc; exact J).
  assert (Hseal : dict_getitem r "checksum"
                  = Some (PStr (_hash_entry sha256 r))).
  { destruct (log_thought_sealed sha256 thought_type content context
                create_signal self) as [d Hd].
    subst r. rewrite Hd.
    now rewrite dict_getitem_setitem, hash_entry_setitem_checksum. }
  split.
  - intros k v v' Hk Hv Jv' Hchg Hcol.
    now apply (field_change_detected sha256 r k v v').
  - intros ctx k v v' Hctx Hv Jv' Hchg r' Hcol.
    assert (Jctx : json_doc (PDict ctx))
      by (eapply json_doc_getitem; eassumption).
    apply (field_change_detected sha256 r "context" (PDict ctx)); auto.
    + discriminate.
    + now apply json_doc_setitem.
    + intros Hsame. apply Hchg.
      apply (same_items_getitem _ _ k v v' Hsame Hv).
      apply dict_getitem_setitem.
Qed.



(** The checksum of a record as the model computes it, against the one
    CPython computes for the same record. *)
Example log_thought_checksum_demo :
  dict_getitem
    (fst (Engine.log_thought Hashlib.sha256 "learning" "note"
            (Some [("files", PList [PStr "a.py"; PStr "b.py"])])
            false sample_engine))
    "checksum"
  = Some (PStr "2071d2f07658f4e44bdad6f8ef036fe3420b8366ff8aac4c030842460a9e7b7b").
Proof. vm_compute. reflexivity. Qed.

(* ================================================================== *)
(** * Further properties of the engine *)

Section engine_state_facts.
Variable sha256 : string -> string.

(** With the integration switched off, what [log_thought] does to the
    engine, field by field. *)
Lemma log_thought_state thought_type content context create_signal self :
  let r := fst (Engine.log_thought sha256 thought_type content context
                  create_signal self) in
  snd (Engine.log_thought sha256 thought_type content context
         create_signal self)
  = {| Engine.echo_state := Engine.echo_state self;
       Engine.session_id := Engine.session_id self;
       Engine.session_file := (Engine.session_file self ++ [r])%list;
       Engine.thoughts := (Engine.thoughts self ++ [r])%list;
       Engine.evolution_file :=
         Some (Engine.incr_total_thoughts (Engine.evolution_data self));
       Engine.evolution_data :=
         Engine.incr_total_thoughts (Engine.evolution_data self);
       Engine.clock := Engine.clock self;
       Engine.ticks := S (Engine.ticks self) |}.
Proof.
  unfold Engine.log_thought, Engine.datetime_now,
    Engine.EXTERNAL_INTEGRATION_AVAILABLE.
  rewrite andb_false_r. reflexivity.
Qed.

Lemma log_thought_record thought_type content context create_signal self :
  fst (Engine.log_thought sha256 thought_type content context
         create_signal self)
  = let d :=
      [("timestamp",
         PStr (Engine.isoformat (Engine.clock self (Engine.ticks self))));
       ("session_id", PStr (Engine.session_id self));
       ("type", PStr thought_type);
       ("content", PStr content);
       ("context", PDict (Engine.or_empty_dict context));
       ("signal_created", PBool false)] in
    (d ++ [("checksum", PStr (_hash_entry sha256 d))])%list.
Proof.
  unfold Engine.log_thought, Engine.datetime_now,
    Engine.EXTERNAL_INTEGRATION_AVAILABLE.
  rewrite andb_false_r. reflexivity.
Qed.



End engine_state_facts.





Section aggregate_facts.
Variable sha256 : string -> string.

Ltac call_cases c :=
  destruct c; simpl;
  unfold Engine.recognize_pattern, Engine.learn_preference,
    Engine.understand_system, Engine.milestone, Engine._log_session_start,
    Engine.datetime_now;
  rewrite ?log_thought_state; simpl.

Lemma run_call_signals c self :
  Engine.external_signals_created
    (Engine.evolution_data (Engine.run_call sha256 c self))
  = Engine.external_signals_created (Engine.evolution_data self).
Proof. call_cases c; try reflexivity. destruct (negb _); reflexivity. Qed.

Lemma run_call_persisted c self :
  Engine.evolution_file (Engine.run_call sha256 c self)
  = Some (Engine.evolution_data (Engine.run_call sha256 c self)).
Proof. call_cases c; reflexivity. Qed.

Lemma run_call_sessions c self :
  Engine.total_sessions
    (Engine.evolution_data (Engine.run_call sha256 c self))
  - Z.of_nat
      (List.length
         (Engine.sessions
            (Engine.evolution_data (Engine.run_call sha256 c self))))
  = Engine.total_sessions (Engine.evolution_data self)
    - Z.of_nat (List.length (Engine.sessions (Engine.evolution_data self))).
Proof.
  call_cases c; try reflexivity.
  - rewrite length_app. simpl. lia.
  - destruct (negb _); reflexivity.
Qed.

Lemma run_call_pattern_names c self :
  NoDup (map Engine.pattern
           (Engine.pattern_recognition (Engine.evolution_data self))) ->
  NoDup (map Engine.pattern
           (Engine.pattern_recognition
              (Engine.evolution_data (Engine.run_call sha256 c self)))).
Proof.
  intros Hnd. call_cases c; try exact Hnd.
  destruct (existsb _ _) eqn:E; simpl; [exact Hnd |].
  rewrite map_app. simpl.
  apply NoDup_app; [exact Hnd | repeat constructor; easy |].
  intros x Hx [Heq | []].
  apply Bool.not_true_iff_false in E. apply E.
  apply existsb_exists. exists x. split; [exact Hx |].
  subst x. apply String.eqb_refl.
Qed.

End aggregate_facts.

(** X2. No external signal is ever created.  With
    [EXTERNAL_INTEGRATION_AVAILABLE] off, asking [log_thought] for a
    signal changes nothing: the call does what it does without the flag,
    the record says [signal_created: False] and has no [signal_topic],
    and [external_signals_created] stays what it was through any
    sequence of calls. *)
Theorem X2_signals_never_created :
  forall (sha256 : string -> string),
    (forall thought_type content context self,
       Engine.log_thought sha256 thought_type content context true self
       = Engine.log_thought sha256 thought_type content context false self)
    /\ (forall thought_type content context create_signal self,
          let r := fst (Engine.log_thought sha256 thought_type content
                          context create_signal self) in
          dict_getitem r "signal_created" = Some (PBool false)
          /\ dict_contains r "signal_topic" = false)
    /\ (forall cs self,
          Engine.external_signals_created
            (Engine.evolution_data (Engine.run_calls sha256 cs self))
          = Engine.external_signals_created (Engine.evolution_data self)).
Proof.
  intros sha256. split; [| split].
  - reflexivity.
  - intros. subst r. rewrite log_thought_record. split; reflexivity.
  - intros cs. unfold Engine.run_calls.
    induction cs as [|c cs IH]; intros self; simpl; [reflexivity |].
    rewrite IH. apply run_call_signals.
Qed.

(** X3. The aggregate on disk is never behind the one in memory: after
    [__init__] and after every call on the engine, the document last
    written to [evolution.json] is the aggregate the engine holds. *)
Theorem X3_aggregate_persisted_after_every_call :
  forall (sha256 : string -> string),
    (forall resumed on_disk clock,
       let self := Engine.init resumed on_disk clock in
       Engine.evolution_file self = Some (Engine.evolution_data self))
    /\ (forall c self,
          let self' := Engine.run_call sha256 c self in
          Engine.evolution_file self' = Some (Engine.evolution_data self')).
Proof.
  intros sha256. split.
  - intros resumed [e|] clock; reflexivity.
  - intros c self. apply run_call_persisted.
Qed.

(** X4. Session count and session records move together: a call on the
    engine never changes the difference between [total_sessions] and
    the number of entries of [sessions]; an engine started on a
    directory without [evolution.json] has [total_sessions] 1, one
    session record, carrying its own session id, and no thought; and an
    engine started on an existing aggregate adds one to its
    [total_sessions] and keeps its [total_thoughts] and its patterns. *)
Theorem X4_sessions_counted :
  forall (sha256 : string -> string),
    (forall cs self,
       let self' := Engine.run_calls sha256 cs self in
       Engine.total_sessions (Engine.evolution_data self')
       - Z.of_nat (List.length (Engine.sessions (Engine.evolution_data self')))
       = Engine.total_sessions (Engine.evolution_data self)
         - Z.of_nat (List.length (Engine.sessions (Engine.evolution_data self))))
    /\ (forall resumed clock,
          let self := Engine.init resumed None clock in
          Engine.total_sessions (Engine.evolution_data self) = 1
          /\ Engine.total_thoughts (Engine.evolution_data self) = 0
          /\ Engine.thoughts self = []
          /\ exists m,
               Engine.sessions (Engine.evolution_data self) = [m]
               /\ dict_getitem m "session_id"
                  = Some (PStr (Engine.session_id self)))
    /\ (forall resumed e clock,
          let self := Engine.init resumed (Some e) clock in
          Engine.total_sessions (Engine.evolution_data self)
          = Engine.total_sessions e + 1
          /\ Engine.total_thoughts (Engine.evolution_data self)
             = Engine.total_thoughts e
          /\ Engine.pattern_recognition (Engine.evolution_data self)
             = Engine.pattern_recognition e).
Proof.
  intros sha256. split; [| split].
  - intros cs. unfold Engine.run_calls.
    induction cs as [|c cs IH]; intros self; simpl; [reflexivity |].
    rewrite IH. apply run_call_sessions.
  - intros resumed clock. simpl. repeat split.
    eexists. split; reflexivity.
  - intros resumed e clock. simpl. repeat split.
Qed.

(** X5. Pattern names stay unique: if no name occurs twice in the
    pattern list, none does after any sequence of calls on the engine. *)
Theorem X5_pattern_names_unique :
  forall (sha256 : string -> string) (cs : list Engine.call)
         (self : Engine.engine),
    NoDup (map Engine.pattern
             (Engine.pattern_recognition (Engine.evolution_data self))) ->
    NoDup (map Engine.pattern
             (Engine.pattern_recognition
                (Engine.evolution_data (Engine.run_calls sha256 cs self)))).
Proof.
  intros sha256 cs. unfold Engine.run_calls.
  induction cs as [|c cs IH]; intros self Hnd; simpl; [exact Hnd |].
  apply IH. now apply run_call_pattern_names.
Qed.

Lemma X5_witness :
  NoDup (map Engine.pattern
           (Engine.pattern_recognition
              (Engine.evolution_data
                 (Engine.run_calls Hashlib.sha256
                    [Engine.call_recognize_pattern "Clean Code Structure"
                       "again" None true;
                     Engine.call_recognize_pattern "Small Functions"
                       "short bodies" None true;
                     Engine.call_recognize_pattern "Small Functions"
                       "once more" None false]
                    sample_engine)))).
Proof.
  apply (X5_pattern_names_unique Hashlib.sha256).
  repeat constructor. simpl. tauto.
Defined.

(** X6. A pattern name that is not yet in the pattern list is recorded:
    [recognize_pattern] puts one entry at the end of the list, holding
    the name, the description, the evidence (an empty dict when none is
    given) and the time of the call, and leaves the earlier entries as
    they were. *)
Theorem X6_new_pattern_appended :
  forall (sha256 : string -> string) (name descr : string)
         (evidence : option pydict) (notify_external : bool)
         (self : Engine.engine),
    ~ In name (map Engine.pattern
                 (Engine.pattern_recognition (Engine.evolution_data self))) ->
    Engine.pattern_recognition
      (Engine.evolution_data
         (snd (Engine.recognize_pattern sha256 name descr evidence
                 notify_external self)))
    = (Engine.pattern_recognition (Engine.evolution_data self)
       ++ [{| Engine.timestamp :=
                Engine.isoformat (Engine.clock self (Engine.ticks self));
              Engine.pattern := name;
              Engine.description := descr;
              Engine.evidence := Engine.or_empty_dict evidence |}])%list.
Proof.
  intros sha256 name descr evidence notify_external self Hnin.
  unfold Engine.recognize_pattern, Engine.datetime_now.
  rewrite log_thought_state. simpl.
  destruct (existsb _ _) eqn:E; simpl; [| reflexivity].
  exfalso. apply existsb_exists in E as [x [Hx Heq]].
  apply String.eqb_eq in Heq. subst x. auto.
Qed.

Lemma X6_witness :
  map Engine.pattern
    (Engine.pattern_recognition
       (Engine.evolution_data
          (snd (Engine.recognize_pattern Hashlib.sha256 "Small Functions"
                  "short bodies" None true sample_engine))))
  = ["Clean Code Structure"; "Small Functions"].
Proof.
  rewrite (X6_new_pattern_appended Hashlib.sha256 "Small Functions"
             "short bodies" None true sample_engine).
  - reflexivity.
  - simpl. intros [H | []]. discriminate H.
Defined.

Section recording_facts.
Variable sha256 : string -> string.

Lemma understand_system_aggregate component understanding connections
    notify_external self :
  Engine.evolution_data
    (snd (Engine.understand_system sha256 component understanding
            connections notify_external self))
  = Engine.incr_total_thoughts
      (Engine.set_understanding (Engine.evolution_data self) component
         (PDict [("understanding", PStr understanding);
                 ("connections",
                   PList (map PStr (Engine.or_empty_list connections)));
                 ("learned",
                   PStr (Engine.isoformat
                           (Engine.clock self (Engine.ticks self))))])).
Proof.
  unfold Engine.understand_system, Engine.datetime_now.
  rewrite log_thought_state. reflexivity.
Qed.

Lemma length_setitem_present d k v :
  dict_contains d k = true ->
  List.length (dict_setitem d k v) = List.length d.
Proof.
  induction d as [|[k' v'] d IH]; simpl; [discriminate |].
  destruct (String.eqb k' k); simpl; [reflexivity |].
  intros H. now rewrite IH.
Qed.

Lemma length_setitem_absent d k v :
  dict_contains d k = false ->
  List.length (dict_setitem d k v) = S (List.length d).
Proof.
  induction d as [|[k' v'] d IH]; simpl; [reflexivity |].
  destruct (String.eqb k' k); simpl; [discriminate |].
  intros H. now rewrite IH.
Qed.

End recording_facts.

(** X7. Understanding is kept one record per component.  After
    [understand_system] the record under the component is the new one
    (the understanding, the connections, an empty list when none are
    given, and the time of the call); the record of every other
    component is what it was; no component is listed twice if none was;
    and the number of components is unchanged when the component was
    known and one more when it was not. *)
Theorem X7_understanding_overwritten_by_component :
  forall (sha256 : string -> string) (component understanding : string)
         (connections : option (list string)) (notify_external : bool)
         (self : Engine.engine),
    let before := Engine.system_understanding (Engine.evolution_data self) in
    let after :=
      Engine.system_understanding
        (Engine.evolution_data
           (snd (Engine.understand_system sha256 component understanding
                   connections notify_external self))) in
    dict_getitem after component
    = Some (PDict [("understanding", PStr understanding);
                   ("connections",
                     PList (map PStr (Engine.or_empty_list connections)));
                   ("learned",
                     PStr (Engine.isoformat
                             (Engine.clock self (Engine.ticks self))))])
    /\ (forall other, other <> component ->
          dict_getitem after other = dict_getitem before other)
    /\ (NoDup (keys before) -> NoDup (keys after))
    /\ List.length after
       = if dict_contains before component then List.length before
         else S (List.length before).
Proof.
  intros sha256 component understanding connections notify_external self
    before after.
  subst after. rewrite understand_system_aggregate. simpl. subst before.
  split; [| split; [| split]].
  - apply dict_getitem_setitem.
  - intros other Hne. apply dict_getitem_setitem_other. congruence.
  - apply NoDup_keys_setitem.
  - destruct (dict_contains _ component) eqn:E.
    + now apply length_setitem_present.
    + now apply length_setitem_absent.
Qed.

Section growth_facts.
Variable sha256 : string -> string.

Lemma run_call_growth c self :
  let e := Engine.evolution_data self in
  let e' := Engine.evolution_data (Engine.run_call sha256 c self) in
  (exists new,
     Engine.learning_milestones e'
     = (Engine.learning_milestones e ++ new)%list
     /\ List.length new = if is_milestone_call c then 1%nat else 0%nat)
  /\ (exists new,
        Engine.pattern_recognition e'
        = (Engine.pattern_recognition e ++ new)%list)
  /\ (forall k,
        dict_contains (Engine.system_understanding e) k = true ->
        dict_contains (Engine.system_understanding e') k = true).
Proof.
  destruct c; simpl;
    unfold Engine.recognize_pattern, Engine.learn_preference,
      Engine.understand_system, Engine.milestone, Engine._log_session_start,
      Engine.datetime_now;
    rewrite ?log_thought_state; simpl.
  1, 2, 4:
    (split; [exists []; rewrite app_nil_r; now split |];
     split; [exists []; now rewrite app_nil_r | auto]).
  - destruct (negb _); simpl.
    + split; [exists []; rewrite app_nil_r; now split |].
      split; [eexists [_]; reflexivity | auto].
    + split; [exists []; rewrite app_nil_r; now split |].
      split; [exists []; now rewrite app_nil_r | auto].
  - split; [exists []; rewrite app_nil_r; now split |].
    split; [exists []; now rewrite app_nil_r |].
    intros k Hk.
    destruct (String.eqb_spec component k) as [-> | Hne].
    + apply dict_contains_setitem.
    + now rewrite dict_contains_setitem_other.
  - split; [eexists [_]; split; reflexivity |].
    split; [exists []; now rewrite app_nil_r | auto].
Qed.

End growth_facts.

(** X8. The collections of the aggregate only grow.  Through any
    sequence of calls, [learning_milestones] and [pattern_recognition]
    are extended at the end, the entries they held staying in place;
    milestones get exactly one entry per call of [milestone], whether
    or not the name is new; and a component recorded in
    [system_understanding] stays recorded. *)
Theorem X8_aggregate_collections_only_grow :
  forall (sha256 : string -> string) (cs : list Engine.call)
         (self : Engine.engine),
    let e := Engine.evolution_data self in
    let e' := Engine.evolution_data (Engine.run_calls sha256 cs self) in
    (exists new,
       Engine.learning_milestones e'
       = (Engine.learning_milestones e ++ new)%list
       /\ List.length new = List.length (filter is_milestone_call cs))
    /\ (exists new,
          Engine.pattern_recognition e'
          = (Engine.pattern_recognition e ++ new)%list)
    /\ (forall k,
          dict_contains (Engine.system_understanding e) k = true ->
          dict_contains (Engine.system_understanding e') k = true).
Proof.
  intros sha256 cs. unfold Engine.run_calls.
  induction cs as [|c cs IH]; intros self; simpl.
  - split; [exists []; now rewrite app_nil_r |].
    split; [exists []; now rewrite app_nil_r | auto].
  - destruct (run_call_growth sha256 c self)
      as ((m1 & Hm1 & Hl1) & (p1 & Hp1) & Hu1).
    destruct (IH (Engine.run_call sha256 c self))
      as ((m2 & Hm2 & Hl2) & (p2 & Hp2) & Hu2).
    split; [| split].
    + exists (m1 ++ m2)%list. rewrite Hm2, Hm1, <- app_assoc.
      split; [reflexivity |]. rewrite length_app, Hl1, Hl2.
      destruct (is_milestone_call c); reflexivity.
    + exists (p1 ++ p2)%list. now rewrite Hp2, Hp1, <- app_assoc.
    + auto.
Qed.

(** ** More on [verify_session] *)

Section session_count_facts.
Variable sha256 : string -> string.

Lemma scan_counts lines : forall c c',
  Session.scan sha256 lines c = Return c' ->
  Session.n_verified c <= Session.n_verified c'
  /\ Session.n_tampered c <= Session.n_tampered c'
  /\ Session.n_missing_checksum c <= Session.n_missing_checksum c'
  /\ Session.n_verified c' + Session.n_tampered c'
     + Session.n_missing_checksum c'
     = Session.n_verified c + Session.n_tampered c
       + Session.n_missing_checksum c + Z.of_nat (List.length lines).
Proof.
  induction lines as [|[entry|] lines IH]; intros c c' H; simpl in H.
  - injection H as <-. simpl. lia.
  - destruct (Session.classify sha256 entry) as [v|e]; [| discriminate].
    apply IH in H. destruct v; simpl in H; simpl List.length; lia.
  - discriminate.
Qed.

Lemma scan_all_verified lines : forall c,
  Forall (fun line => exists r, line = Some (PDict r)
                       /\ verify_integrity sha256 r = true) lines ->
  Session.scan sha256 lines c
  = Return {| Session.n_verified :=
                Session.n_verified c + Z.of_nat (List.length lines);
              Session.n_tampered := Session.n_tampered c;
              Session.n_missing_checksum := Session.n_missing_checksum c |}.
Proof.
  induction lines as [|line lines IH]; intros c Hall.
  - simpl. destruct c; simpl. f_equal. f_equal. lia.
  - inversion Hall as [|? ? (r & -> & Hv) Hall']; subst.
    cbn [Session.scan Session.classify].
    assert (Hc : dict_contains r "checksum" = true).
    { unfold verify_integrity in Hv.
      destruct (dict_contains r "checksum"); [reflexivity | discriminate]. }
    rewrite Hc, Hv. cbn [negb]. rewrite (IH _ Hall').
    simpl. f_equal. f_equal. lia.
Qed.



End session_count_facts.

(** X9. A session file whose lines all hold records that pass
    [verify_integrity] is reported clean: [verify_session] returns a
    report with [verified] and [total_entries] equal to the number of
    lines, [tampered] and [missing_checksum] zero, and [integrity_rate]
    computed from all-verified counts. *)
Theorem X9_unmodified_session_reported_clean :
  forall (sha256 : string -> string) (percent_1f : Z -> Z -> string)
         (path : string) (lines : list (option pyval)),
    Forall (fun line => exists r, line = Some (PDict r)
                         /\ verify_integrity sha256 r = true) lines ->
    let n := Z.of_nat (List.length lines) in
    Session.verify_session sha256 percent_1f path lines
    = Return {| Session.session_file := path;
                Session.total_entries := n;
                Session.verified := n;
                Session.tampered := 0;
                Session.missing_checksum := 0;
                Session.integrity_rate :=
                  if 0 <? n then percent_1f n n else "N/A" |}.
Proof.
  intros sha256 percent_1f path lines Hall n.
  unfold Session.verify_session.
  rewrite (scan_all_verified sha256 lines _ Hall). simpl.
  replace (Z.of_nat (List.length lines) + 0 + 0) with n by (subst n; lia).
  reflexivity.
Qed.

Lemma X9_witness :
  let r :=
    [("timestamp", PStr "2025-10-27T09:00:05.000000");
     ("session_id", PStr "20251027_090000");
     ("type", PStr "learning");
     ("content", PStr "note");
     ("context", PDict [("files", PList [PStr "a.py"; PStr "b.py"])]);
     ("signal_created", PBool false);
     ("checksum",
       PStr "2071d2f07658f4e44bdad6f8ef036fe3420b8366ff8aac4c030842460a9e7b7b")] in
  verify_integrity Hashlib.sha256 r = true
  /\ Session.verify_session Hashlib.sha256 (fun _ _ => "100.0%")
       "session.jsonl" [Some (PDict r)]
     = Return {| Session.session_file := "session.jsonl";
                 Session.total_entries := 1;
                 Session.verified := 1;
                 Session.tampered := 0;
                 Session.missing_checksum := 0;
                 Session.integrity_rate := "100.0%" |}.
Proof.
  intros r.
  assert (Hv : verify_integrity Hashlib.sha256 r = true)
    by (vm_compute; reflexivity).
  split; [exact Hv |].
  apply (X9_unmodified_session_reported_clean Hashlib.sha256
           (fun _ _ => "100.0%") "session.jsonl" [Some (PDict r)]).
  constructor; [| constructor]. exists r. split; [reflexivity | exact Hv].
Defined.

(** X10. Whenever [verify_session] returns a report, every line has been
    counted exactly once: [total_entries] is the number of lines of the
    file, the three counts are not negative, and they add up to
    [total_entries]. *)
Theorem X10_report_counts_every_line_once :
  forall (sha256 : string -> string) (percent_1f : Z -> Z -> string)
         (path : string) (lines : list (option pyval))
         (rep : Session.report),
    Session.verify_session sha256 percent_1f path lines = Return rep ->
    Session.total_entries rep = Z.of_nat (List.length lines)
    /\ Session.verified rep + Session.tampered rep
       + Session.missing_checksum rep = Session.total_entries rep
    /\ 0 <= Session.verified rep
    /\ 0 <= Session.tampered rep
    /\ 0 <= Session.missing_checksum rep.
Proof.
  intros sha256 percent_1f path lines rep. unfold Session.verify_session.
  destruct (Session.scan sha256 lines _) as [c|e] eqn:E; [| discriminate].
  intros [= <-]. apply scan_counts in E. simpl in *. lia.
Qed.

Lemma X10_witness :
  let lines :=
    [Some (PDict [("content", PStr "no checksum")]);
     Some (PDict [("content", PStr "x"); ("checksum", PStr "bogus")]);
     Some (PStr "not an object")] in
  exists rep,
    Session.verify_session Hashlib.sha256 (fun _ _ => "") "s.jsonl" lines
    = Return rep
    /\ Session.total_entries rep = 3
    /\ Session.verified rep + Session.tampered rep
       + Session.missing_checksum rep = Session.total_entries rep.
Proof.
  intros lines.
  assert (H : Session.verify_session Hashlib.sha256 (fun _ _ => "") "s.jsonl"
                lines
              = Return {| Session.session_file := "s.jsonl";
                          Session.total_entries := 3;
                          Session.verified := 0;
                          Session.tampered := 1;
                          Session.missing_checksum := 2;
                          Session.integrity_rate := "" |})
    by (vm_compute; reflexivity).
  eexists. split; [exact H |].
  destruct (X10_report_counts_every_line_once _ _ _ _ _ H)
    as (Ht & Hs & _).
  split; [exact Ht | exact Hs].
Defined.



(** ** More on the codec *)

Section codec_text_facts.

Lemma all_printable_app a b :
  all_printable (a ++ b) = all_printable a && all_printable b.
Proof.
  induction a as [|c a IH]; simpl; [reflexivity |].
  now rewrite IH, andb_assoc.
Qed.

Lemma all_printable_escape_char c : all_printable (escape_char c) = true.
Proof. destruct c as [[] [] [] [] [] [] [] []]; reflexivity. Qed.

Lemma all_printable_escape s : all_printable (escape s) = true.
Proof.
  induction s as [|c s IH]; simpl; [reflexivity |].
  now rewrite all_printable_app, all_printable_escape_char, IH.
Qed.

Lemma all_printable_encode s :
  all_printable (encode_basestring_ascii s) = true.
Proof.
  unfold encode_basestring_ascii. simpl.
  now rewrite all_printable_app, all_printable_escape.
Qed.

Lemma all_printable_uint u :
  all_printable (NilEmpty.string_of_uint u) = true.
Proof. induction u; simpl; auto. Qed.

Lemma all_printable_repr_int z : all_printable (repr_int z) = true.
Proof.
  unfold repr_int. destruct (Z.to_int z); simpl; apply all_printable_uint.
Qed.

Lemma all_printable_join parts :
  Forall (fun p => all_printable p = true) parts ->
  all_printable (join ", " parts) = true.
Proof.
  induction 1 as [|p parts Hp _ IH]; [reflexivity |].
  rewrite join_cons, all_printable_app, Hp.
  destruct parts; simpl in *; [reflexivity | exact IH].
Qed.

Lemma all_printable_dumps v : all_printable (dumps v) = true.
Proof.
  induction v as [| [|] | z | s | l IH | l IH | d IH]
    using pyval_nested_ind; try reflexivity.
  - apply all_printable_repr_int.
  - apply all_printable_encode.
  - simpl. rewrite all_printable_app, all_printable_join; [reflexivity |].
    apply Forall_map. exact IH.
  - simpl. rewrite all_printable_app, all_printable_join; [reflexivity |].
    apply Forall_map. exact IH.
  - simpl. rewrite all_printable_app, all_printable_join; [reflexivity |].
    apply Forall_map. rewrite Forall_forall in *. intros kv Hin.
    apply (Permutation_in _ (Permutation_sym (sort_items_perm _))) in Hin.
    apply in_map_iff in Hin as [kv' [<- Hin]].
    unfold member. simpl fst. simpl snd.
    rewrite all_printable_app, all_printable_encode. simpl.
    apply (IH kv' Hin).
Qed.

End codec_text_facts.

(** X12. Tampering with the checksum itself is always caught.  Whatever
    the record, storing a value under [checksum] makes it pass
    [verify_integrity] exactly when that value is the string digest of
    the other fields; any other string, and any value that is not a
    string, fails.  The checksum already in the record plays no part in
    the digest. *)
Theorem X12_checksum_must_be_the_digest :
  forall (sha256 : string -> string) (r : pydict) (v : pyval),
    (verify_integrity sha256 (dict_setitem r "checksum" v) = true
     <-> v = PStr (_hash_entry sha256 r))
    /\ _hash_entry sha256 (dict_setitem r "checksum" v) = _hash_entry sha256 r.
Proof.
  intros sha256 r v. split; [| apply hash_entry_setitem_checksum].
  unfold verify_integrity.
  rewrite dict_contains_setitem, dict_getitem_setitem,
    hash_entry_setitem_checksum. simpl. split.
  - destruct v; simpl; try discriminate.
    intros H. apply String.eqb_eq in H. now subst.
  - intros ->. simpl. apply String.eqb_refl.
Qed.

(** ** Reading an escaped string back, code point by code point *)

Section code_point_facts.
Local Open Scope N_scope.

Lemma hex_value_hex_digit (d : N) : d < 16 -> hex_value (hex_digit d) = Some d.
Proof.
  intros H.
  assert (Hm : exists m, (m < 16)%nat /\ d = N.of_nat m)
    by (exists (N.to_nat d); lia).
  destruct Hm as [m [Hm ->]].
  do 16 (destruct m as [|m]; [reflexivity |]). lia.
Qed.

Lemma u_escape_4_app n t :
  u_escape_4 n ++ t
  = String "\" (String "u"
      (String (hex_digit (N.shiftr n 12))
        (String (hex_digit (N.land (N.shiftr n 8) 15))
          (String (hex_digit (N.land (N.shiftr n 4) 15))
            (String (hex_digit (N.land n 15)) t))))).
Proof. reflexivity. Qed.

Lemma hex4_value_digits n t :
  n < 65536 ->
  hex4_value
    (String (hex_digit (N.shiftr n 12))
      (String (hex_digit (N.land (N.shiftr n 8) 15))
        (String (hex_digit (N.land (N.shiftr n 4) 15))
          (String (hex_digit (N.land n 15)) t))))
  = Some (n, t).
Proof.
  intros H. unfold hex4_value.
  change 15 with (N.ones 4). rewrite !N.land_ones, !N.shiftr_div_pow2.
  change (2 ^ 12) with 4096. change (2 ^ 8) with 256. change (2 ^ 4) with 16.
  rewrite !hex_value_hex_digit.
  - f_equal. f_equal. zify. Z.to_euclidean_division_equations. lia.
  - apply N.mod_lt. discriminate.
  - apply N.mod_lt. discriminate.
  - apply N.mod_lt. discriminate.
  - zify. Z.to_euclidean_division_equations. lia.
Qed.

Lemma unescape_u (r : string) :
  unescape_code_point (String "\" (String "u" r)) = u_escape_value r.
Proof. reflexivity. Qed.

Lemma low_surrogate_value_u (a : N) (r : string) :
  low_surrogate_value a (String "\" (String "u" r))
  = match hex4_value r with
    | Some (b, rest') => Some (65536 + (a - 55296) * 1024 + (b - 56320), rest')
    | None => None
    end.
Proof. reflexivity. Qed.

Lemma lor_high_low a y :
  N.lor (a * 2 ^ 10) (N.land y 1023) = a * 2 ^ 10 + y mod 2 ^ 10.
Proof.
  assert (H : N.land (a * 2 ^ 10) (y mod 2 ^ 10) = 0).
  { apply N.bits_inj. intros i. rewrite N.land_spec, N.bits_0.
    destruct (N.lt_ge_cases i 10) as [Hi | Hi].
    - now rewrite N.mul_pow2_bits_low.
    - rewrite (N.mod_pow2_bits_high y 10 i Hi). apply andb_false_r. }
  change 1023 with (N.ones 10). rewrite N.land_ones.
  now rewrite N.add_nocarry_lxor, N.lxor_lor.
Qed.

Lemma unescape_escape_code_point n t :
  scalar_value n = true ->
  unescape_code_point (escape_code_point n ++ t) = Some (n, t).
Proof.
  unfold scalar_value, is_surrogate, escape_code_point. intros Hn.
  apply andb_prop in Hn as [Hmax Hsur]. apply N.leb_le in Hmax.
  apply negb_true_iff in Hsur.
  destruct (N.eqb_spec n 34) as [-> | N34]; [reflexivity |].
  destruct (N.eqb_spec n 92) as [-> | N92]; [reflexivity |].
  destruct (N.eqb_spec n 8) as [-> | N8]; [reflexivity |].
  destruct (N.eqb_spec n 12) as [-> | N12]; [reflexivity |].
  destruct (N.eqb_spec n 10) as [-> | N10]; [reflexivity |].
  destruct (N.eqb_spec n 13) as [-> | N13]; [reflexivity |].
  destruct (N.eqb_spec n 9) as [-> | N9]; [reflexivity |].
  destruct ((32 <=? n) && (n <=? 126)) eqn:Hp.
  - apply andb_prop in Hp as [H1 H2]. apply N.leb_le in H1, H2.
    simpl. destruct (Ascii.eqb_spec (ascii_of_N n) "\") as [E | E].
    + exfalso. apply (f_equal N_of_ascii) in E.
      rewrite N_ascii_embedding in E by lia. simpl in E. lia.
    + rewrite N_ascii_embedding by lia. reflexivity.
  - destruct (N.ltb_spec n 65536) as [Hlt | Hge].
    + rewrite u_escape_4_app, unescape_u. unfold u_escape_value.
      rewrite (hex4_value_digits n t Hlt).
      replace ((55296 <=? n) && (n <? 56320)) with false; [reflexivity |].
      symmetry. apply andb_false_iff. apply andb_false_iff in Hsur.
      destruct Hsur as [Hs | Hs]; [now left | right].
      apply N.leb_gt in Hs. apply N.ltb_ge. lia.
    + cbv zeta.
      change 55296 with (54 * 2 ^ 10) at 1.
      change 56320 with (55 * 2 ^ 10) at 1.
      rewrite !lor_high_low, N.shiftr_div_pow2.
      change (2 ^ 10) with 1024.
      set (m := n - 65536).
      assert (Hm : m < 1048576) by (subst m; lia).
      set (s1 := 54 * 1024 + (m / 1024) mod 1024).
      set (s2 := 55 * 1024 + m mod 1024).
      assert (Hs1 : 55296 <= s1 < 56320)
        by (subst s1; zify; Z.to_euclidean_division_equations; lia).
      assert (Hs2 : s2 < 65536)
        by (subst s2; zify; Z.to_euclidean_division_equations; lia).
      rewrite string_app_assoc, u_escape_4_app, unescape_u.
      unfold u_escape_value.
      rewrite (hex4_value_digits s1 _ ltac:(lia)).
      replace ((55296 <=? s1) && (s1 <? 56320)) with true
        by (symmetry; apply andb_true_iff;
            split; [apply N.leb_le | apply N.ltb_lt]; lia).
      rewrite u_escape_4_app, low_surrogate_value_u.
      rewrite (hex4_value_digits s2 t Hs2).
      f_equal. f_equal. subst s1 s2 m.
      zify. Z.to_euclidean_division_equations. lia.
Qed.

Lemma escape_code_points_inj s1 : forall s2,
  Forall (fun n => scalar_value n = true) s1 ->
  Forall (fun n => scalar_value n = true) s2 ->
  escape_code_points s1 = escape_code_points s2 -> s1 = s2.
Proof.
  induction s1 as [|n1 s1 IH]; intros [|n2 s2] H1 H2 E; simpl in E.
  - reflexivity.
  - inversion H2 as [|? ? Hn _]; subst.
    pose proof (unescape_escape_code_point n2 (escape_code_points s2) Hn) as U.
    rewrite <- E in U. discriminate U.
  - inversion H1 as [|? ? Hn _]; subst.
    pose proof (unescape_escape_code_point n1 (escape_code_points s1) Hn) as U.
    rewrite E in U. discriminate U.
  - inversion H1 as [|? ? Hn1 H1']; subst.
    inversion H2 as [|? ? Hn2 H2']; subst.
    pose proof (unescape_escape_code_point n1 (escape_code_points s1) Hn1) as U1.
    pose proof (unescape_escape_code_point n2 (escape_code_points s2) Hn2) as U2.
    rewrite E, U2 in U1. injection U1 as -> E'.
    f_equal. apply IH; auto.
Qed.

End code_point_facts.

(** X13. What the text [_hash_entry] digests tells apart.  Among the
    JSON documents of the model (null, booleans, integers [json.dumps]
    can print, strings of code points up to U+00FF, arrays,
    string-keyed objects; no tuples, no floats) two documents have the
    same canonical text ([json.dumps] with sorted keys) exactly when
    they hold the same items, up to the order in which their mappings
    were filled.  The string encoder itself is one-to-one on the
    strings of any code points that hold no surrogate.  Beyond that the
    text is not one-to-one: a tuple is printed as the list of its items,
    and the string encoder writes the character U+1F600 as it writes
    the two surrogates U+D83D and U+DE00. *)
Theorem X13_canonical_text_one_to_one :
  (forall v1 v2 : pyval,
     json_doc v1 -> json_doc v2 ->
     ints_printable v1 = true -> ints_printable v2 = true ->
     (dumps v1 = dumps v2 <-> same_items v1 v2))
  /\ (forall s1 s2 : list N,
        Forall (fun n => scalar_value n = true) s1 ->
        Forall (fun n => scalar_value n = true) s2 ->
        escape_code_points s1 = escape_code_points s2 -> s1 = s2)
  /\ (forall l : list pyval,
        dumps (PTuple l) = dumps (PList l)
        /\ ~ same_items (PTuple l) (PList l))
  /\ escape_code_points [128512%N] = escape_code_points [55357%N; 56832%N].
Proof.
  split; [| split; [| split]].
  - intros v1 v2 J1 J2 _ _. split.
    + now apply dumps_inj.
    + apply dumps_same_items.
  - intros s1 s2. apply escape_code_points_inj.
  - intros l. split; [reflexivity |]. intros H. inversion H.
  - reflexivity.
Qed.

Lemma X13_witness :
  dumps (PDict [("b", PInt 2); ("a", PList [PNone; PBool true])])
  = dumps (PDict [("a", PList [PNone; PBool true]); ("b", PInt 2)])
  <-> same_items
        (PDict [("b", PInt 2); ("a", PList [PNone; PBool true])])
        (PDict [("a", PList [PNone; PBool true]); ("b", PInt 2)]).
Proof.
  apply (proj1 X13_canonical_text_one_to_one).
  - apply jd_dict.
    + repeat constructor; simpl; intuition discriminate.
    + repeat constructor.
  - apply jd_dict.
    + repeat constructor; simpl; intuition discriminate.
    + repeat constructor.
  - reflexivity.
  - reflexivity.
Defined.

(** X14. The text handed to the digest is plain ASCII: whatever a
    record holds, control characters and characters above the tilde
    included, its canonical text is made of the characters from the
    space to the tilde only, so encoding it changes nothing. *)
Theorem X14_canonical_text_is_ascii :
  forall v : pyval,
    all_printable (dumps v) = true
    /\ Forall (fun b => 32 <= b <= 126) (Hashlib.bytes_of (dumps v)).
Proof.
  intros v. split; [apply all_printable_dumps |].
  unfold Hashlib.bytes_of.
  generalize (all_printable_dumps v). generalize (dumps v).
  induction s as [|c s IH]; simpl; intros H; [constructor |].
  apply andb_prop in H as [Hc Hs]. apply andb_prop in Hc as [H1 H2].
  apply N.leb_le in H1, H2. constructor; [lia | auto].
Qed.

(** ** More on the resume reconciler *)

Section resume_payload_facts.

Lemma insert_sorted_sorted x l :
  Sorted Z.le l -> Sorted Z.le (Resume.insert_sorted x l).
Proof.
  induction l as [|h t IH]; simpl; intros Hs.
  - repeat constructor.
  - destruct (Z.leb_spec x h).
    + constructor; [exact Hs | now constructor].
    + inversion Hs as [|? ? Hs' Hhd]; subst.
      constructor; [auto |].
      destruct t as [|h' t']; simpl.
      * constructor. lia.
      * inversion Hhd; subst.
        destruct (Z.leb_spec x h'); constructor; lia.
Qed.

Lemma sorted_sorted l : Sorted Z.le (Resume.sorted l).
Proof.
  induction l as [|h t IH]; simpl; [constructor |].
  now apply insert_sorted_sorted.
Qed.

Lemma next_step_of_spec steps :
  (steps = [] -> Resume.next_step_of steps = 1)
  /\ (forall n, In n steps -> n < Resume.next_step_of steps)
  /\ (steps <> [] -> In (Resume.next_step_of steps - 1) steps).
Proof.
  destruct steps as [|x l]; simpl.
  - repeat split; [intros n [] | congruence].
  - destruct (max_of_spec l x) as [Hin Hle]. repeat split.
    + discriminate.
    + intros n Hn. specialize (Hle n Hn). lia.
    + intros _. now replace (Resume.max_of x l + 1 - 1) with (Resume.max_of x l)
        by lia.
Qed.

End resume_payload_facts.

(** X15. What the resume payload says.  When the state document names a
    plan whose file exists, [resume_on_startup] returns a payload that
    carries the state document as read and the path of the plan file;
    [completed_steps] holds the step numbers of all the markers that
    parse, each once per marker, in ascending order; [next_step] is 1
    when there is none, and otherwise one more than the largest of
    them, so that it is above every completed step. *)
Theorem X15_resume_payload :
  forall (fs : Resume.disk) (p : Resume.echo_paths) (d : pydict)
         (name : string),
    Resume.path_exists fs (Resume.state p) = Return true ->
    Resume.read_json fs (Resume.state p) = Some (PDict d) ->
    dict_getitem d "current_plan" = Some (PStr name) ->
    name <> "" ->
    Resume.path_exists fs (Resume.joinpath fs (Resume.plans p) name)
    = Return true ->
    let steps :=
      Resume.collect_steps (Resume.glob_step_ok fs (Resume.checkpoints p)) in
    exists (payload : pydict) (completed : list Z) (next : Z),
      fst (Resume.resume_on_startup fs (Some p))
      = Return (Some (PDict payload))
      /\ dict_getitem payload "state" = Some (PDict d)
      /\ dict_getitem payload "plan_file"
         = Some (PStr (Resume.joinpath fs (Resume.plans p) name))
      /\ dict_getitem payload "completed_steps"
         = Some (PList (map PInt completed))
      /\ dict_getitem payload "next_step" = Some (PInt next)
      /\ Permutation steps completed
      /\ Sorted Z.le completed
      /\ (steps = [] -> next = 1)
      /\ (forall n, In n completed -> n < next)
      /\ (steps <> [] -> In (next - 1) completed).
Proof.
  intros fs p d name Hstate Hread Hplan Hname Hfile steps.
  unfold Resume.resume_on_startup, dict_get.
  rewrite Hstate, Hread, Hplan. simpl.
  destruct (String.eqb_spec name ""); [contradiction |]. simpl.
  rewrite Hfile. simpl. fold steps.
  destruct (next_step_of_spec steps) as (H0 & Hlt & Hin).
  eexists. exists (Resume.sorted steps), (Resume.next_step_of steps).
  split; [reflexivity |]. repeat split; auto.
  - apply sorted_perm.
  - apply sorted_sorted.
  - intros m Hm. apply Hlt.
    eapply Permutation_in; [symmetry; apply sorted_perm | exact Hm].
  - intros Hne. eapply Permutation_in; [apply sorted_perm | auto].
Qed.

Lemma X15_witness :
  let fs :=
    sample_disk
      [Resume.state sample_paths; ".echo_memory/echo_state/plan/deploy.md"]
      (PDict sample_state)
      ["step-7.ok"; "readme.md"; "step-2.ok"; "step-two.ok"; "step-07.ok"] in
  exists payload,
    fst (Resume.resume_on_startup fs (Some sample_paths))
    = Return (Some (PDict payload))
    /\ dict_getitem payload "completed_steps"
       = Some (PList [PInt 2; PInt 7; PInt 7])
    /\ dict_getitem payload "next_step" = Some (PInt 8).
Proof.
  intros fs.
  destruct (X15_resume_payload fs sample_paths sample_state "deploy.md")
    as (payload & completed & next & Hres & _);
    [reflexivity | reflexivity | reflexivity | discriminate | reflexivity |].
  exists payload. split; [exact Hres |].
  vm_compute in Hres. injection Hres as <-. split; reflexivity.
Defined.

(** ** Marker names *)

Section marker_facts.

Lemma string_length_app a b :
  String.length (a ++ b) = (String.length a + String.length b)%nat.
Proof. induction a as [|c a IH]; simpl; [reflexivity | now rewrite IH]. Qed.

Lemma string_rev_app a b :
  Resume.string_rev (a ++ b) = Resume.string_rev b ++ Resume.string_rev a.
Proof.
  induction a as [|c a IH]; simpl.
  - now rewrite string_app_nil_r.
  - now rewrite IH, string_app_assoc.
Qed.

Lemma string_rev_involutive s :
  Resume.string_rev (Resume.string_rev s) = s.
Proof.
  induction s as [|c s IH]; simpl; [reflexivity |].
  now rewrite string_rev_app, IH.
Qed.

Lemma no_space_app a b : no_space (a ++ b) = no_space a && no_space b.
Proof.
  induction a as [|c a IH]; simpl; [reflexivity |].
  now rewrite IH, andb_assoc.
Qed.

Lemma no_space_rev s : no_space (Resume.string_rev s) = no_space s.
Proof.
  induction s as [|c s IH]; simpl; [reflexivity |].
  rewrite no_space_app, IH. simpl. rewrite andb_true_r. apply andb_comm.
Qed.

Lemma lstrip_no_space s : no_space s = true -> Resume.lstrip s = s.
Proof.
  destruct s as [|c s]; simpl; [reflexivity |].
  destruct (Resume.is_space c); [discriminate | reflexivity].
Qed.

(** [int] strips nothing from a text without white space. *)
Lemma strip_no_space s : no_space s = true -> Resume.strip s = s.
Proof.
  intros H. unfold Resume.strip.
  rewrite (lstrip_no_space s H), lstrip_no_space
    by now rewrite no_space_rev.
  apply string_rev_involutive.
Qed.

Lemma no_space_uint u : no_space (NilEmpty.string_of_uint u) = true.
Proof. induction u; simpl; auto. Qed.

Lemma int_digits_uint u : forall acc,
  Resume.int_digits acc (NilEmpty.string_of_uint u)
  = Some (uint_value u acc).
Proof. induction u; intros acc; simpl; auto. Qed.

Lemma uint_value_acc u : forall acc : positive,
  uint_value u (Z.pos acc) = Z.pos (Pos.of_uint_acc u acc).
Proof.
  induction u; intros acc; cbn [uint_value Pos.of_uint_acc];
    [reflexivity | ..]; rewrite <- IHu; f_equal; lia.
Qed.

Lemma uint_value_of_uint u : uint_value u 0 = Z.of_N (Pos.of_uint u).
Proof.
  induction u; simpl; try reflexivity; try exact IHu;
    apply (uint_value_acc u).
Qed.

Lemma int_unsigned_uint u :
  u <> Decimal.Nil ->
  Resume.int_unsigned (NilEmpty.string_of_uint u) = Some (uint_value u 0).
Proof.
  destruct u; [contradiction | ..]; intros _;
    cbn [NilEmpty.string_of_uint Resume.int_unsigned];
    (change (Resume.digit_value _) with (Some 0)
     || change (Resume.digit_value _) with (Some 1)
     || change (Resume.digit_value _) with (Some 2)
     || change (Resume.digit_value _) with (Some 3)
     || change (Resume.digit_value _) with (Some 4)
     || change (Resume.digit_value _) with (Some 5)
     || change (Resume.digit_value _) with (Some 6)
     || change (Resume.digit_value _) with (Some 7)
     || change (Resume.digit_value _) with (Some 8)
     || change (Resume.digit_value _) with (Some 9));
    cbv iota; rewrite int_digits_uint; reflexivity.
Qed.

(** [int] reads the decimal rendering of an integer back to it. *)
Lemma int_of_str_repr_int n : Resume.int_of_str (repr_int n) = Some n.
Proof.
  unfold Resume.int_of_str.
  assert (Hns : no_space (repr_int n) = true).
  { unfold repr_int. destruct (Z.to_int n); simpl; apply no_space_uint. }
  rewrite (strip_no_space _ Hns). unfold repr_int.
  destruct n as [|p|p]; [reflexivity | |].
  - cbn [Z.to_int NilEmpty.string_of_int].
    pose proof (DecimalPos.Unsigned.to_uint_nonnil p) as Hn.
    pose proof (int_unsigned_uint _ Hn) as Hu.
    rewrite uint_value_of_uint, DecimalPos.Unsigned.of_to in Hu.
    destruct (Pos.to_uint p); [contradiction | ..]; exact Hu.
  - cbn [Z.to_int NilEmpty.string_of_int].
    pose proof (DecimalPos.Unsigned.to_uint_nonnil p) as Hn.
    pose proof (int_unsigned_uint _ Hn) as Hu.
    rewrite uint_value_of_uint, DecimalPos.Unsigned.of_to in Hu.
    change (Ascii.eqb "-" "-") with true. cbv iota.
    now rewrite Hu.
Qed.

Lemma prefix_app a b : String.prefix a (a ++ b) = true.
Proof.
  induction a as [|c a IH]; simpl.
  - now destruct b.
  - destruct (ascii_dec c c); [exact IH | contradiction].
Qed.

Lemma rfind_dot_app a b j :
  Resume.rfind_dot b = Some j ->
  Resume.rfind_dot (a ++ b) = Some (String.length a + j)%nat.
Proof.
  intros Hb. induction a as [|c a IH]; simpl; [exact Hb |].
  now rewrite IH.
Qed.

Lemma substring_prefix a b : String.substring 0 (String.length a) (a ++ b) = a.
Proof. induction a as [|c a IH]; simpl; [now destruct b | now rewrite IH]. Qed.

(** The stem of [a.ok] is [a]. *)
Lemma stem_ok a : a <> "" -> Resume.stem (a ++ ".ok") = a.
Proof.
  intros Ha. unfold Resume.stem.
  rewrite (rfind_dot_app a ".ok" 0 eq_refl), string_length_app, Nat.add_0_r.
  destruct a as [|c a]; [contradiction |].
  replace ((0 <? String.length (String c a))
           && (String.length (String c a)
               <? String.length (String c a) + String.length ".ok" - 1))%nat
    with true.
  - apply substring_prefix.
  - symmetry. apply andb_true_intro. simpl String.length.
    split; [reflexivity |]. apply Nat.ltb_lt. lia.
Qed.

End marker_facts.

(** X17. The marker name of a step is read back to the step.  For every
    integer [n], negative ones included, the file name made of [step-],
    the decimal rendering of [n] and [.ok] is matched by the glob
    pattern of the reconciler, and the marker loop reads [n] from it. *)
Theorem X17_marker_name_read_back :
  forall n : Z,
    let name := "step-" ++ repr_int n ++ ".ok" in
    Resume.glob_match name = true
    /\ Resume.marker_step name = Some n
    /\ Resume.collect_steps [name] = [n].
Proof.
  intros n name.
  assert (Hm : Resume.marker_step name = Some n).
  { unfold Resume.marker_step. subst name.
    rewrite <- string_app_assoc, stem_ok by discriminate.
    cbn [append Resume.split_dash_1].
    change (Ascii.eqb "s" "-") with false.
    change (Ascii.eqb "t" "-") with false.
    change (Ascii.eqb "e" "-") with false.
    change (Ascii.eqb "p" "-") with false.
    change (Ascii.eqb "-" "-") with true. cbv iota.
    apply int_of_str_repr_int. }
  split; [| split; [exact Hm |]].
  - unfold Resume.glob_match, Resume.endswith. subst name.
    apply andb_true_intro. split; [apply andb_true_intro; split |].
    + apply prefix_app.
    + rewrite <- string_app_assoc, string_rev_app. apply prefix_app.
    + apply Nat.leb_le. rewrite !string_length_app. simpl. lia.
  - simpl. now rewrite Hm.
Qed.

(** ** [reflect] *)

Section reflect_facts.

Lemma count_key_sum tt t :
  fold_right Z.add 0 (map snd (Engine.count_key tt t))
  = fold_right Z.add 0 (map snd tt) + 1.
Proof.
  induction tt as [|[k n] tt IH]; [reflexivity |].
  cbn [Engine.count_key].
  destruct (Engine.key_eqb k t); cbn [map snd fold_right].
  - lia.
  - rewrite IH. lia.
Qed.

Lemma count_key_positive tt t :
  Forall (fun kv => 1 <= snd kv) tt ->
  Forall (fun kv => 1 <= snd kv) (Engine.count_key tt t).
Proof.
  induction 1 as [|[k n] tt Hk Htt IH]; simpl.
  - repeat constructor. simpl. lia.
  - destruct (Engine.key_eqb k t).
    + constructor; [simpl in *; lia | exact Htt].
    + constructor; [exact Hk | exact IH].
Qed.

Lemma thought_breakdown_sum thoughts : forall tt tt',
  Engine.thought_breakdown_of thoughts tt = Engine.Reflected tt' ->
  fold_right Z.add 0 (map snd tt')
  = fold_right Z.add 0 (map snd tt) + Z.of_nat (List.length thoughts)
  /\ (Forall (fun kv => 1 <= snd kv) tt ->
      Forall (fun kv => 1 <= snd kv) tt').
Proof.
  induction thoughts as [|th thoughts IH]; intros tt tt' H; simpl in H.
  - injection H as <-. simpl. split; [lia | auto].
  - destruct (dict_getitem th "type") as [t|]; [| discriminate].
    destruct (Engine.hashable t); [| discriminate].
    apply IH in H as [Hs Hp]. rewrite Hs, count_key_sum.
    split; [simpl List.length; lia |].
    intros Hpos. apply Hp. now apply count_key_positive.
Qed.

Lemma count_signals_bounds thoughts :
  0 <= Engine.count_signals thoughts <= Z.of_nat (List.length thoughts).
Proof.
  unfold Engine.count_signals. split; [lia |].
  apply Nat2Z.inj_le. induction thoughts as [|t thoughts IH]; simpl; [lia |].
  destruct (truthy _); simpl; lia.
Qed.



End reflect_facts.

Section reflect_engine_facts.
Variable sha256 : string -> string.



End reflect_engine_facts.

(** X18. The counts of a reflection add up.  Whenever [reflect] returns,
    [thoughts_logged] is the number of records in [thoughts], the counts
    of [thought_breakdown] are all at least 1 and add up to
    [thoughts_logged], and [signals_created] lies between 0 and
    [thoughts_logged]. *)
Theorem X18_reflection_counts_add_up :
  forall (self : Engine.engine) (r : Engine.reflection),
    Engine.reflect self = Engine.Reflected r ->
    Engine.thoughts_logged r = Z.of_nat (List.length (Engine.thoughts self))
    /\ fold_right Z.add 0 (map snd (Engine.thought_breakdown r))
       = Engine.thoughts_logged r
    /\ Forall (fun kv => 1 <= snd kv) (Engine.thought_breakdown r)
    /\ 0 <= Engine.signals_created r <= Engine.thoughts_logged r.
Proof.
  intros self r. unfold Engine.reflect.
  destruct (Engine.thought_breakdown_of (Engine.thoughts self) [])
    as [tt| |] eqn:E; [| discriminate ..].
  intros [= <-]. simpl. apply thought_breakdown_sum in E as [Hs Hp].
  split; [reflexivity |]. split; [rewrite Hs; simpl; lia |].
  split; [apply Hp; constructor | apply count_signals_bounds].
Qed.

Lemma X18_witness :
  exists r,
    Engine.reflect sample_engine = Engine.Reflected r
    /\ Engine.thoughts_logged r = 1
    /\ fold_right Z.add 0 (map snd (Engine.thought_breakdown r))
       = Engine.thoughts_logged r.
Proof.
  destruct (Engine.reflect sample_engine) as [r| |] eqn:E;
    [| vm_compute in E; discriminate E ..].
  exists r.
  destruct (X18_reflection_counts_add_up sample_engine r E)
    as (Hn & Hs & _).
  split; [reflexivity |]. split; [| exact Hs].
  rewrite Hn. reflexivity.
Defined.


(** ** The shape of a digest *)

Section digest_facts.

Lemma hex_length d x : String.length (Hashlib.hex d x) = d.
Proof. induction d as [|d IH]; simpl; [reflexivity | now rewrite IH]. Qed.

Lemma hex_char_is_hex n :
  0 <= n < 16 -> hex_value (Hashlib.hex_char n) <> None.
Proof.
  intros Hn. rewrite <- (Z2Nat.id n) by lia.
  assert (Hm : (Z.to_nat n < 16)%nat) by lia.
  revert Hm. generalize (Z.to_nat n) as m. intros m Hm.
  do 16 (destruct m as [|m]; [discriminate |]). lia.
Qed.

Lemma hex_all_hex d x : all_hex (Hashlib.hex d x) = true.
Proof.
  induction d as [|d IH]; [reflexivity |].
  cbn [Hashlib.hex all_hex].
  destruct (hex_value _) eqn:E; [exact IH |].
  exfalso. revert E. apply hex_char_is_hex.
  apply Z.mod_pos_bound. lia.
Qed.

Lemma all_hex_app a b : all_hex (a ++ b) = all_hex a && all_hex b.
Proof.
  induction a as [|c a IH]; simpl; [reflexivity |].
  destruct (hex_value c); [exact IH | reflexivity].
Qed.

Lemma concat_hex_words ws :
  String.length (String.concat "" (map (Hashlib.hex 8) ws))
  = (8 * List.length ws)%nat
  /\ all_hex (String.concat "" (map (Hashlib.hex 8) ws)) = true.
Proof.
  induction ws as [|w ws [IHl IHh]]; [split; reflexivity |].
  cbn [map String.concat]. destruct (map (Hashlib.hex 8) ws) eqn:E.
  - destruct ws; [| discriminate]. split; [apply hex_length |].
    apply hex_all_hex.
  - rewrite string_length_app, all_hex_app, hex_length, hex_all_hex.
    cbn [append]. rewrite IHl, IHh. split; [simpl List.length; lia |].
    reflexivity.
Qed.

Lemma round_length s kw :
  List.length (Hashlib.round s kw) = List.length s.
Proof.
  destruct s as [|a [|b [|c [|d [|e [|f [|g [|h [|i s]]]]]]]]];
    reflexivity.
Qed.

Lemma rounds_length kws : forall s,
  List.length (fold_left Hashlib.round kws s) = List.length s.
Proof.
  induction kws as [|kw kws IH]; intros s; simpl; [reflexivity |].
  now rewrite IH, round_length.
Qed.

Lemma compress_length s block :
  List.length (Hashlib.compress s block) = List.length s.
Proof.
  unfold Hashlib.compress.
  rewrite length_map, length_combine, rounds_length. apply Nat.min_id.
Qed.

Lemma blocks_length fuel : forall words s,
  List.length (Hashlib.blocks fuel words s) = List.length s.
Proof.
  induction fuel as [|fuel IH]; intros words s; simpl; [reflexivity |].
  destruct words; [reflexivity |]. now rewrite IH, compress_length.
Qed.

End digest_facts.

(** X20. A checksum is always 64 lower-case hexadecimal digits: whatever
    the text, the SHA-256 digest has that shape, and so has the checksum
    [_hash_entry] computes for any record. *)
Theorem X20_checksum_is_64_hex_digits :
  forall entry : pydict,
    String.length (_hash_entry Hashlib.sha256 entry) = 64%nat
    /\ all_hex (_hash_entry Hashlib.sha256 entry) = true.
Proof.
  intros entry. unfold _hash_entry, Hashlib.sha256.
  match goal with
  | |- context [String.concat "" (map (Hashlib.hex 8) ?ws)] =>
      destruct (concat_hex_words ws) as [Hl Hh];
      assert (Hn : List.length ws = 8%nat)
        by (rewrite blocks_length; reflexivity)
  end.
  split; [| exact Hh]. rewrite Hl, Hn. reflexivity.
Qed.
